(** * The docker:nix builder: build, ingest, identify, tag

    A shallow embedding of [DockerNixBuilder.Build] in its two variants:
    - [Retry]  : src/unnamed/part_000 (ingestion in a loop of two attempts);
    - [Single] : src/pkg/build/docker_nix.go (one attempt after a 100 ms sleep).

    The collaborators of [Build] (the host architecture, the docker client,
    the nix subprocess, the file system, [docker.PipeOutput] and
    [docker.GetImageID]) are not part of the two files; they are gathered in a
    record [Env] of answers, and every call to one of them is written to a
    trace.  The caller's configuration object lives in a heap, because [Build]
    receives a pointer to it. *)

From Stdlib Require Import Ascii String ZArith Lia.
From stdpp Require Import base option list gmap strings.

Open Scope Z_scope.
Open Scope string_scope.
Open Scope stdpp_scope.

(** ** Go's [strings] functions used by the builder *)

Module GoStrings.

Definition CR : ascii := "013"%char.
Definition LF : ascii := "010"%char.

(** The cutset ["\r\n"]. *)
Definition CRLF : string := String CR (String LF EmptyString).

(** [strings.IndexByte(cutset, c) >= 0]. *)
Fixpoint ContainsByte (cutset : string) (c : ascii) : bool :=
  match cutset with
  | EmptyString => false
  | String d rest => if Ascii.eqb c d then true else ContainsByte rest c
  end.

(** [strings.TrimRight(s, cutset)]: [s] without its longest suffix made of
    characters of [cutset].  Go trims runes; for an ASCII cutset this is the
    same as trimming bytes, since no byte of a multi-byte UTF-8 sequence is
    below 128. *)
Fixpoint TrimRight (s cutset : string) : string :=
  match s with
  | EmptyString => EmptyString
  | String c rest =>
      match TrimRight rest cutset with
      | EmptyString => if ContainsByte cutset c then EmptyString
                       else String c EmptyString
      | kept => String c kept
      end
  end.

(** [s[len(prefix):]] when [strings.HasPrefix(s, prefix)]. *)
Fixpoint CutPrefix (s prefix : string) {struct prefix} : option string :=
  match prefix, s with
  | EmptyString, _ => Some s
  | String p prefix', String c s' =>
      if Ascii.eqb c p then CutPrefix s' prefix' else None
  | String _ _, EmptyString => None
  end.

Definition HasPrefix (s prefix : string) : bool :=
  match CutPrefix s prefix with Some _ => true | None => false end.

(** [strings.TrimPrefix(s, prefix)]: [s] without the leading [prefix]; [s]
    itself when it does not start with [prefix]. *)
Definition TrimPrefix (s prefix : string) : string :=
  match CutPrefix s prefix with
  | Some rest => rest
  | None => s
  end.

End GoStrings.

(** ** Errors *)

(** Go error values, as far as [Build] builds and inspects them. *)
Inductive error : Type :=
| ErrNew (msg : string)
    (** [fmt.Errorf] without [%w], and errors of the collaborators *)
| ExitError (state : string) (Stderr : string)
    (** [*exec.ExitError]: the process state text and the captured stderr *)
| ErrWrap (prefix : string) (inner : error).
    (** [fmt.Errorf(prefix + "%w", inner)] *)

(** [err.Error()]. *)
Fixpoint Error (e : error) : string :=
  match e with
  | ErrNew msg => msg
  | ExitError state _ => state
  | ErrWrap prefix inner => prefix +:+ Error inner
  end.

(** [errors.Unwrap(err)]. *)
Definition Unwrap (e : error) : option error :=
  match e with
  | ErrWrap _ inner => Some inner
  | _ => None
  end.

(** [errors.As(err, &ee)] for [ee *exec.ExitError], followed by [ee.Stderr]:
    the standard error text carried by the first exit error of the chain. *)
Fixpoint AsExitErrorStderr (e : error) : option string :=
  match e with
  | ErrNew _ => None
  | ExitError _ stderr => Some stderr
  | ErrWrap _ inner => AsExitErrorStderr inner
  end.

(** A Go result pair [(T, error)] of a collaborator. *)
Inductive result (A : Type) : Type :=
| Ok (a : A)
| Err (e : error).
Arguments Ok {A} a.
Arguments Err {A} e.

(** ** Data of the builder *)

Record DockerNixBuilderConfig : Type := mkConfig {
  Enabled : bool;
  Name : string;
  System : string
}.

(** [api.BuildOutput], of which [Build] sets [ArtifactPath] only. *)
Record BuildOutput : Type := mkOutput { ArtifactPath : string }.

(** Addresses of configuration objects. *)
Abbreviation loc := nat.

(** The dynamic value of [in.BuildConfig] (an [interface{}]): a pointer to a
    [DockerNixBuilderConfig], or a value of another type, of which only the
    type name ([%T]) is used. *)
Inductive BuildConfigValue : Type :=
| PtrDockerNixBuilderConfig (cfg : loc)
| OtherConfig (type_name : string).

(** The fields of [api.BuildInput] that [Build] reads; [PlanDir] is
    [in.UnpackedSources.PlanDir]. *)
Record BuildInput : Type := mkInput {
  BuildConfig : BuildConfigValue;
  TestPlan : string;
  PlanDir : string
}.

(** ** The collaborators *)

(** File descriptors of opened artifacts. *)
Abbreviation fd := nat.

(** What [Build] asks of the outside, in the order of the run. *)
Inductive event : Type :=
| EvNewClient
| EvInfow (msg : string) (kvs : list (string * string))
| EvErrorw (msg : string) (kvs : list (string * string))
| EvOutput (argv : list string)          (** [exec.Command(argv...).Output()] *)
| EvSleep (ms : Z)                       (** [time.Sleep], in milliseconds *)
| EvOpen (path : string)                 (** [os.Open(path)] *)
| EvClose (f : fd)                       (** [tarball.Close()] *)
| EvImageLoad (f : fd)                   (** [cli.ImageLoad(ctx, tarball, false)] *)
| EvPipeOutput                           (** [docker.PipeOutput(body, stdout)] *)
| EvGetImageID (tag : string)            (** [docker.GetImageID(ctx, cli, tag)] *)
| EvImageTag (source tag : string).      (** [cli.ImageTag(ctx, source, tag)] *)

(** The answers of the collaborators, taken as parameters of [Build]:
    [runtime.GOARCH], the docker client and its calls, the nix subprocess
    ([Output] is what [cmd.Output()] returns for an argument vector), the file
    system, and the two helpers of the repository's docker package, which is
    not among the source files: [PipeOutput] relays the load response and
    returns its last line, [GetImageID] asks the runtime for the identifier of
    a tag.  The calls of the load stage take the number of the attempt (from
    0), so that an answer may change from one attempt to the next.  An answer
    [None] of a call that returns only an error is Go's [nil].  The ingestion
    call releases the file it is given (see [cli_ImageLoad]). *)
Record Env : Type := mkEnv {
  GOARCH : string;
  NewClientWithOpts : option error;
  Output : list string -> result string;
  Open : nat -> string -> option error;
  ImageLoad : nat -> option error;
  PipeOutput : nat -> result string;
  GetImageID : string -> result string;
  ImageTag : string -> string -> option error
}.

(** ** State and control *)

Record State : Type := mkState {
  heap : gmap loc DockerNixBuilderConfig;   (** the configuration objects *)
  open_files : list fd;                     (** descriptors opened, not closed *)
  next_fd : fd;
  peak_open : nat;     (** the most descriptors that were open at one time *)
  trace : list event
}.

Definition initial (h : gmap loc DockerNixBuilderConfig) : State :=
  {| heap := h; open_files := []; next_fd := 3%nat; peak_open := 0%nat;
     trace := [] |}.

(** A statement either falls through with a value, or leaves [Build] with its
    pair of results, or panics (nil pointer dereference). *)
Inductive outcome (A : Type) : Type :=
| Next (a : A)
| Return (out : option BuildOutput) (err : option error)
| Panic.
Arguments Next {A} a.
Arguments Return {A} out err.
Arguments Panic {A}.

Definition M (A : Type) : Type := State -> outcome A * State.

Definition pure {A} (a : A) : M A := fun s => (Next a, s).

Definition bind {A B} (m : M A) (k : A -> M B) : M B :=
  fun s =>
    match m s with
    | (Next a, s') => k a s'
    | (Return out err, s') => (Return out err, s')
    | (Panic, s') => (Panic, s')
    end.

(** [return out, err]. *)
Definition go_return {A} (out : option BuildOutput) (err : option error) : M A :=
  fun s => (Return out err, s).

Notation "x <- m ;; k" := (bind m (fun x => k))
  (at level 100, m at next level, right associativity).
Notation "m ;; k" := (bind m (fun _ => k))
  (at level 100, right associativity).

(** [defer d] around [body]: [d] runs when [body] is left, however it is. *)
Definition with_defer {A} (d : M unit) (body : M A) : M A :=
  fun s =>
    let (o, s') := body s in
    let (_, s'') := d s' in
    (o, s'').

Definition emit (e : event) : M unit :=
  fun s => (Next tt, {| heap := heap s; open_files := open_files s;
                        next_fd := next_fd s; peak_open := peak_open s;
                        trace := trace s ++ [e] |}).

(** Reading and writing the fields of [*cfg]. *)
Definition load (cfg : loc) : M DockerNixBuilderConfig :=
  fun s =>
    match heap s !! cfg with
    | Some c => (Next c, s)
    | None => (Panic, s)
    end.

Definition store (cfg : loc) (c : DockerNixBuilderConfig) : M unit :=
  fun s => (Next tt, {| heap := <[cfg := c]> (heap s); open_files := open_files s;
                        next_fd := next_fd s; peak_open := peak_open s;
                        trace := trace s |}).

Definition set_System (cfg : loc) (v : string) : M unit :=
  c <- load cfg ;; store cfg {| Enabled := Enabled c; Name := Name c; System := v |}.

Definition set_Name (cfg : loc) (v : string) : M unit :=
  c <- load cfg ;; store cfg {| Enabled := Enabled c; Name := v; System := System c |}.

(** The state in which descriptor [f] is no longer open. *)
Definition released (s : State) (f : fd) : State :=
  {| heap := heap s; open_files := filter (fun g => g ≠ f) (open_files s);
     next_fd := next_fd s; peak_open := peak_open s; trace := trace s |}.

(** The calls to the collaborators. *)
Section Calls.
Variable env : Env.

Definition client_NewClientWithOpts : M (option error) :=
  emit EvNewClient ;; pure (NewClientWithOpts env).

Definition ow_Infow (msg : string) (kvs : list (string * string)) : M unit :=
  emit (EvInfow msg kvs).

Definition ow_Errorw (msg : string) (kvs : list (string * string)) : M unit :=
  emit (EvErrorw msg kvs).

Definition cmd_Output (argv : list string) : M (result string) :=
  emit (EvOutput argv) ;; pure (Output env argv).

Definition time_Sleep (ms : Z) : M unit := emit (EvSleep ms).

Definition os_Open (attempt : nat) (path : string) : M (result fd) :=
  emit (EvOpen path) ;;
  match Open env attempt path with
  | Some e => pure (Err e)
  | None =>
      fun s => (Next (Ok (next_fd s)),
                {| heap := heap s; open_files := open_files s ++ [next_fd s];
                   next_fd := S (next_fd s);
                   peak_open := Nat.max (peak_open s)
                                  (List.length (open_files s ++ [next_fd s]));
                   trace := trace s |})
  end.

Definition tarball_Close (f : fd) : M unit :=
  emit (EvClose f) ;;
  fun s => (Next tt,
            {| heap := heap s;
               open_files := filter (fun g => g ≠ f) (open_files s);
               next_fd := next_fd s; peak_open := peak_open s;
               trace := trace s |}).

(** The client sends the file as the body of its request, and the HTTP
    transport closes the body of a request that it was given, when the call
    succeeds and when it fails: after the call the descriptor is released. *)
Definition cli_ImageLoad (attempt : nat) (tarball : fd) : M (option error) :=
  emit (EvImageLoad tarball) ;;
  (fun s => (Next tt, released s tarball)) ;;
  pure (ImageLoad env attempt).

Definition docker_PipeOutput (attempt : nat) : M (result string) :=
  emit EvPipeOutput ;; pure (PipeOutput env attempt).

Definition docker_GetImageID (tag : string) : M (result string) :=
  emit (EvGetImageID tag) ;; pure (GetImageID env tag).

Definition cli_ImageTag (source tag : string) : M (option error) :=
  emit (EvImageTag source tag) ;; pure (ImageTag env source tag).
End Calls.


(** ** The stages shared by the two files *)

Import GoStrings.

(** Lines 35-64 of both files: the type assertion on [in.BuildConfig], the
    docker client, and the defaults of [cfg.System] and [cfg.Name], written
    through the pointer [cfg]. *)
Definition fill_defaults (env : Env) (inp : BuildInput) : M loc :=
  match BuildConfig inp with
  | OtherConfig type_name =>
      go_return None
        (Some (ErrNew ("expected configuration type DockerNixBuilderConfig, was: "
                       +:+ type_name)))
  | PtrDockerNixBuilderConfig cfg =>
      err <- client_NewClientWithOpts env ;;
      match err with
      | Some e => go_return None (Some e)
      | None =>
          c <- load cfg ;;
          (if (String.length (System c) =? 0)%nat then
             if String.eqb (GOARCH env) "arm64" then
               set_System cfg "aarch64-linux"
             else if String.eqb (GOARCH env) "amd64" then
               set_System cfg "x86_64-linux"
             else
               go_return None
                 (Some (ErrNew ("unsupported architecture: " +:+ GOARCH env)))
           else pure tt) ;;
          c <- load cfg ;;
          (if (String.length (Name c) =? 0)%nat then
             set_Name cfg (TestPlan inp +:+ "-image")
           else pure tt) ;;
          pure cfg
      end
  end.

(** [fmt.Sprintf("%s#legacyPackages.%s.%s", basesrc, cfg.System, cfg.Name)]. *)
Definition target (basesrc : string) (c : DockerNixBuilderConfig) : string :=
  basesrc +:+ "#legacyPackages." +:+ System c +:+ "." +:+ Name c.

(** Lines 66-86 of both files: the nix subprocess and the artifact path. *)
Definition nix_build (env : Env) (inp : BuildInput) (cfg : loc) : M string :=
  let basesrc := PlanDir inp in
  c <- load cfg ;;
  ow_Infow "nix build" [("target", target basesrc c)] ;;
  r <- cmd_Output env ["nix"; "build"; target basesrc c; "--no-link"; "--print-out-paths"] ;;
  match r with
  | Err err =>
      match err with
      | ExitError _ stderr => ow_Errorw "nix build fail result" [("stderr", stderr)]
      | _ => pure tt
      end ;;
      go_return None (Some (ErrWrap "nix build failed: " err))
  | Ok stdout =>
      let path := TrimRight stdout CRLF in
      ow_Infow "nix build completed" [("path", path)] ;;
      pure path
  end.

(** [strings.TrimRight(strings.TrimPrefix(rsp, "Loaded image: "), "\r\n")]. *)
Definition default_tag (rsp : string) : string :=
  TrimRight (TrimPrefix rsp "Loaded image: ") CRLF.

(** Lines 119-140 of part_000 and 106-127 of docker_nix.go: the identifier of
    the default tag and the test plan's tag.  The two files differ in the text
    shown in the lookup error ([defaultTag] in the first, [rsp] in the
    second); the elapsed time of the log line is left out. *)
Definition identify_and_tag (env : Env) (inp : BuildInput)
    (defaultTag shown : string) : M Empty_set :=
  ow_Infow "build completed" [("default_tag", defaultTag)] ;;
  r <- docker_GetImageID env defaultTag ;;
  match r with
  | Err err =>
      go_return None
        (Some (ErrWrap ("couldnt get docker image id: " +:+ shown +:+ ", ") err))
  | Ok imageID =>
      ow_Infow "got docker image id" [("image_id", imageID)] ;;
      let out := {| ArtifactPath := imageID |} in
      let testplanImageTag := TestPlan inp +:+ ":" +:+ imageID in
      ow_Infow "tagging image" [("image_id", imageID); ("tag", testplanImageTag)] ;;
      err <- cli_ImageTag env (ArtifactPath out) testplanImageTag ;;
      match err with
      | Some e => go_return (Some out) (Some e)
      | None => go_return (Some out) None
      end
  end.

(** ** src/unnamed/part_000: ingestion in a loop of two attempts *)

Module Retry.

(** Lines 90-113: [for i := 0; i < 2; i++], with [remaining = 2 - i]
    iterations left; [defaultTag] is the variable declared before the loop. *)
Fixpoint load_loop (env : Env) (path : string) (remaining i : nat)
    (defaultTag : string) : M string :=
  match remaining with
  | O => pure defaultTag
  | S remaining' =>
      r <- os_Open env i path ;;
      match r with
      | Err err =>
          go_return None
            (Some (ErrWrap ("couldnt open tarball: " +:+ path +:+ ", ") err))
      | Ok tarball =>
          err <- cli_ImageLoad env i tarball ;;
          match err with
          | Some _ =>
              time_Sleep 1000 ;;
              load_loop env path remaining' (S i) defaultTag
          | None =>
              r <- docker_PipeOutput env i ;;
              match r with
              | Err _ =>
                  time_Sleep 1000 ;;
                  load_loop env path remaining' (S i) defaultTag
              | Ok rsp =>
                  let defaultTag := default_tag rsp in
                  if (0 <? String.length defaultTag)%nat then pure defaultTag
                  else
                    time_Sleep 1000 ;;
                    load_loop env path remaining' (S i) defaultTag
              end
          end
      end
  end.

(** Lines 88-117: the loop and the check of its result. *)
Definition load_stage (env : Env) (path : string) : M string :=
  defaultTag <- load_loop env path 2 0 "" ;;
  if (String.length defaultTag =? 0)%nat then
    go_return None (Some (ErrNew "fail to load docker image"))
  else pure defaultTag.

Definition Build (env : Env) (inp : BuildInput) : M Empty_set :=
  cfg <- fill_defaults env inp ;;
  path <- nix_build env inp cfg ;;
  defaultTag <- load_stage env path ;;
  identify_and_tag env inp defaultTag defaultTag.

End Retry.

(** ** src/pkg/build/docker_nix.go: one attempt after a short sleep *)

Module Single.

(** Lines 91-105: the artifact is opened, its closing deferred, and the load
    response read; then the rest of [Build] runs under the [defer]. *)
Definition load_and_finish (env : Env) (inp : BuildInput) (path : string)
    : M Empty_set :=
  r <- os_Open env 0 path ;;
  match r with
  | Err err =>
      go_return None
        (Some (ErrWrap ("couldnt open tarball: " +:+ path +:+ ", ") err))
  | Ok tarball =>
      with_defer (tarball_Close tarball)
        (err <- cli_ImageLoad env 0 tarball ;;
         match err with
         | Some e => go_return None (Some (ErrWrap "docker image load failed: " e))
         | None =>
             r <- docker_PipeOutput env 0 ;;
             match r with
             | Err e =>
                 go_return None
                   (Some (ErrWrap "couldnt read docker image load response: " e))
             | Ok rsp =>
                 let defaultTag := default_tag rsp in
                 identify_and_tag env inp defaultTag rsp
             end
         end)
  end.

Definition Build (env : Env) (inp : BuildInput) : M Empty_set :=
  cfg <- fill_defaults env inp ;;
  path <- nix_build env inp cfg ;;
  time_Sleep 100 ;;
  load_and_finish env inp path.

End Single.

(** ** Observations of a run *)

(** The pair of results, a [BuildOutput] pointer and an error, that the run
    returned, if it returned. *)
Definition returned {A} (r : outcome A * State) : option (option BuildOutput * option error) :=
  match fst r with
  | Return out err => Some (out, err)
  | _ => None
  end.

Definition final {A} (r : outcome A * State) : State := snd r.

(** The events of a run from the initial state. *)
Definition events {A} (r : outcome A * State) : list event := trace (snd r).

Definition is_open (e : event) : bool :=
  match e with EvOpen _ => true | _ => false end.
Definition is_close (e : event) : bool :=
  match e with EvClose _ => true | _ => false end.
Definition is_load (e : event) : bool :=
  match e with EvImageLoad _ => true | _ => false end.
Definition is_sleep (e : event) : bool :=
  match e with EvSleep _ => true | _ => false end.
Definition is_output (e : event) : bool :=
  match e with EvOutput _ => true | _ => false end.
Definition is_lookup (e : event) : bool :=
  match e with EvGetImageID _ => true | _ => false end.
Definition is_tagging (e : event) : bool :=
  match e with EvImageTag _ _ => true | _ => false end.

Definition count (p : event -> bool) (l : list event) : nat :=
  List.length (List.filter p l).

(** The run reached the log line of lines 119 (part_000) and 106
    (docker_nix.go): the load stage has ended with default tag [T]. *)
Definition load_succeeded {A} (r : outcome A * State) (T : string) : Prop :=
  EvInfow "build completed" [("default_tag", T)] ∈ events r.

(** The two variants of [Build]. *)
Inductive variant : Type := Baseline | Hardened.

Definition Build_of (v : variant) : Env -> BuildInput -> M Empty_set :=
  match v with
  | Baseline => Retry.Build
  | Hardened => Single.Build
  end.

(** ** The words of the specification *)

(** The fixed table of the Architecture Resolver (section 4.1). *)
Definition platform_table (goarch : string) : option string :=
  if String.eqb goarch "arm64" then Some "aarch64-linux"
  else if String.eqb goarch "amd64" then Some "x86_64-linux"
  else None.

Definition resolved_platform (goarch configured : string) : option string :=
  match configured with
  | EmptyString => platform_table goarch
  | _ => Some configured
  end.

(** The effective artifact name (second testable property). *)
Definition effective_name (plan configured : string) : string :=
  match configured with
  | EmptyString => plan +:+ "-image"
  | _ => configured
  end.

(** The ingestion of attempt [i] (from 0) fails: the ingestion call errors,
    or its response cannot be read, or the tag read from it is empty. *)
Definition ingestion_fails (env : Env) (i : nat) : Prop :=
  is_Some (ImageLoad env i)
  \/ (exists e, PipeOutput env i = Err e)
  \/ (exists rsp, PipeOutput env i = Ok rsp /\ default_tag rsp = "").

(** The collaborators that answer the first attempt as [env] answers attempt
    [k]: a run in which that attempt is the first one. *)
Definition first_try (env : Env) (k : nat) : Env :=
  {| GOARCH := GOARCH env;
     NewClientWithOpts := NewClientWithOpts env;
     Output := Output env;
     Open := fun i => Open env (k + i);
     ImageLoad := fun i => ImageLoad env (k + i);
     PipeOutput := fun i => PipeOutput env (k + i);
     GetImageID := GetImageID env;
     ImageTag := ImageTag env |}.

(** ** States of a run *)

Definition log (s : State) (es : list event) : State :=
  {| heap := heap s; open_files := open_files s; next_fd := next_fd s;
     peak_open := peak_open s; trace := trace s ++ es |}.

Definition with_heap (s : State) (h : gmap loc DockerNixBuilderConfig) : State :=
  {| heap := h; open_files := open_files s; next_fd := next_fd s;
     peak_open := peak_open s; trace := trace s |}.

(** The state after a successful [os.Open(path)]. *)
Definition opened (s : State) (path : string) : State :=
  {| heap := heap s; open_files := open_files s ++ [next_fd s];
     next_fd := S (next_fd s);
     peak_open := Nat.max (peak_open s) (List.length (open_files s ++ [next_fd s]));
     trace := trace s ++ [EvOpen path] |}.

(** The state after [tarball.Close()] of descriptor [f]. *)
Definition closed (s : State) (f : fd) : State :=
  {| heap := heap s; open_files := filter (fun g => g ≠ f) (open_files s);
     next_fd := next_fd s; peak_open := peak_open s;
     trace := trace s ++ [EvClose f] |}.

(** The state after a successful [os.Open(path)] whose file went to the
    ingestion call, and after the events [es] that followed the opening. *)
Definition attempted (s : State) (path : string) (es : list event) : State :=
  {| heap := heap s;
     open_files := filter (fun g => g ≠ next_fd s) (open_files s ++ [next_fd s])%list;
     next_fd := S (next_fd s);
     peak_open := Nat.max (peak_open s) (List.length (open_files s ++ [next_fd s]));
     trace := trace s ++ EvOpen path :: es |}.

Definition argv_of (inp : BuildInput) (c : DockerNixBuilderConfig) : list string :=
  ["nix"; "build"; target (PlanDir inp) c; "--no-link"; "--print-out-paths"].

(** Lines 35-86 of both files. *)
Definition prefix (env : Env) (inp : BuildInput) : M string :=
  cfg <- fill_defaults env inp ;; nix_build env inp cfg.

(** The configuration object after the defaults. *)
Definition defaulted (inp : BuildInput) (c : DockerNixBuilderConfig) (sys : string)
    : DockerNixBuilderConfig :=
  {| Enabled := Enabled c; Name := effective_name (TestPlan inp) (Name c);
     System := sys |}.

(** The state of a run that has got its artifact path. *)
Definition built (h : gmap loc DockerNixBuilderConfig) (cfg : loc)
    (inp : BuildInput) (c' : DockerNixBuilderConfig) (path : string) : State :=
  {| heap := <[cfg := c']> h; open_files := []; next_fd := 3%nat;
     peak_open := 0%nat;
     trace := [EvNewClient;
               EvInfow "nix build" [("target", target (PlanDir inp) c')];
               EvOutput (argv_of inp c');
               EvInfow "nix build completed" [("path", path)]] |}.

(** The ways in which the run up to the artifact path ends. *)
Inductive prefix_case (env : Env) (inp : BuildInput)
    (h : gmap loc DockerNixBuilderConfig) : outcome string * State -> Prop :=
| prefix_mismatch type_name :
    BuildConfig inp = OtherConfig type_name ->
    prefix_case env inp h
      (Return None
         (Some (ErrNew ("expected configuration type DockerNixBuilderConfig, was: "
                        +:+ type_name))),
       initial h)
| prefix_no_client cfg e :
    BuildConfig inp = PtrDockerNixBuilderConfig cfg ->
    NewClientWithOpts env = Some e ->
    prefix_case env inp h (Return None (Some e), log (initial h) [EvNewClient])
| prefix_nil cfg :
    BuildConfig inp = PtrDockerNixBuilderConfig cfg ->
    NewClientWithOpts env = None ->
    h !! cfg = None ->
    prefix_case env inp h (Panic, log (initial h) [EvNewClient])
| prefix_unsupported cfg c :
    BuildConfig inp = PtrDockerNixBuilderConfig cfg ->
    NewClientWithOpts env = None ->
    h !! cfg = Some c ->
    resolved_platform (GOARCH env) (System c) = None ->
    prefix_case env inp h
      (Return None (Some (ErrNew ("unsupported architecture: " +:+ GOARCH env))),
       log (initial h) [EvNewClient])
| prefix_nix_failed cfg c sys e :
    BuildConfig inp = PtrDockerNixBuilderConfig cfg ->
    NewClientWithOpts env = None ->
    h !! cfg = Some c ->
    resolved_platform (GOARCH env) (System c) = Some sys ->
    Output env (argv_of inp (defaulted inp c sys)) = Err e ->
    prefix_case env inp h
      (Return None (Some (ErrWrap "nix build failed: " e)),
       {| heap := <[cfg := defaulted inp c sys]> h; open_files := [];
          next_fd := 3%nat; peak_open := 0%nat;
          trace := [EvNewClient;
                    EvInfow "nix build"
                      [("target", target (PlanDir inp) (defaulted inp c sys))];
                    EvOutput (argv_of inp (defaulted inp c sys))]
                   ++ match e with
                      | ExitError _ stderr =>
                          [EvErrorw "nix build fail result" [("stderr", stderr)]]
                      | _ => []
                      end |})
| prefix_built cfg c sys stdout :
    BuildConfig inp = PtrDockerNixBuilderConfig cfg ->
    NewClientWithOpts env = None ->
    h !! cfg = Some c ->
    resolved_platform (GOARCH env) (System c) = Some sys ->
    Output env (argv_of inp (defaulted inp c sys)) = Ok stdout ->
    prefix_case env inp h
      (Next (TrimRight stdout CRLF),
       built h cfg inp (defaulted inp c sys) (TrimRight stdout CRLF)).

(** ** Concrete runs *)

(** The scenario of the specification's last testable property: plan
    ["mytest"], no platform and no name configured, an x86_64 host, the first
    ingestion call fails and the second succeeds. *)
Definition scenario_env : Env :=
  {| GOARCH := "amd64";
     NewClientWithOpts := None;
     Output := fun _ => Ok "/nix/store/abc.tar";
     Open := fun _ _ => None;
     ImageLoad := fun i => match i with O => Some (ErrNew "EOF") | _ => None end;
     PipeOutput := fun _ => Ok ("Loaded image: myimg:latest" +:+ CRLF);
     GetImageID := fun _ => Ok "sha256:deadbeef";
     ImageTag := fun _ _ => None |}.

Definition scenario_input : BuildInput :=
  {| BuildConfig := PtrDockerNixBuilderConfig 0%nat;
     TestPlan := "mytest";
     PlanDir := "/plans/mytest" |}.

Definition scenario_heap : gmap loc DockerNixBuilderConfig :=
  {[ 0%nat := {| Enabled := true; Name := ""; System := "" |} ]}.

(** A runtime whose load response ends in an empty line, and which knows no
    image of the empty name. *)
Definition empty_line_env : Env :=
  {| GOARCH := "amd64";
     NewClientWithOpts := None;
     Output := fun _ => Ok "/nix/store/abc.tar";
     Open := fun _ _ => None;
     ImageLoad := fun _ => None;
     PipeOutput := fun _ => Ok "";
     GetImageID := fun tag =>
       match tag with
       | EmptyString => Err (ErrNew "Error: No such image: ")
       | _ => Ok "sha256:deadbeef"
       end;
     ImageTag := fun _ _ => None |}.

(** The same load response, with a runtime that resolves every name. *)
Definition empty_line_lenient_env : Env :=
  {| GOARCH := "amd64";
     NewClientWithOpts := None;
     Output := fun _ => Ok "/nix/store/abc.tar";
     Open := fun _ _ => None;
     ImageLoad := fun _ => None;
     PipeOutput := fun _ => Ok "";
     GetImageID := fun _ => Ok "sha256:deadbeef";
     ImageTag := fun _ _ => None |}.

(** A load response whose last line lacks the prefix. *)
Definition prefixless_env : Env :=
  {| GOARCH := "amd64";
     NewClientWithOpts := None;
     Output := fun _ => Ok "/nix/store/abc.tar";
     Open := fun _ _ => None;
     ImageLoad := fun _ => None;
     PipeOutput := fun _ => Ok ("myimg:latest" +:+ CRLF);
     GetImageID := fun _ => Ok "sha256:deadbeef";
     ImageTag := fun _ _ => None |}.

(** The artifact is not visible at the first attempt and is at the second. *)
Definition late_file_env : Env :=
  {| GOARCH := "amd64";
     NewClientWithOpts := None;
     Output := fun _ => Ok "/nix/store/abc.tar";
     Open := fun i _ =>
       match i with
       | O => Some (ErrNew "open /nix/store/abc.tar: no such file or directory")
       | _ => None
       end;
     ImageLoad := fun _ => None;
     PipeOutput := fun _ => Ok ("Loaded image: myimg:latest" +:+ CRLF);
     GetImageID := fun _ => Ok "sha256:deadbeef";
     ImageTag := fun _ _ => None |}.

(** The nix subprocess exits with status 1. *)
Definition nix_fails_env : Env :=
  {| GOARCH := "amd64";
     NewClientWithOpts := None;
     Output := fun _ => Err (ExitError "exit status 1" "error: attribute missing");
     Open := fun _ _ => None;
     ImageLoad := fun _ => None;
     PipeOutput := fun _ => Ok ("Loaded image: myimg:latest" +:+ CRLF);
     GetImageID := fun _ => Ok "sha256:deadbeef";
     ImageTag := fun _ _ => None |}.

(** The runtime refuses the test plan's tag. *)
Definition tag_fails_env : Env :=
  {| GOARCH := "arm64";
     NewClientWithOpts := None;
     Output := fun _ => Ok "/nix/store/abc.tar";
     Open := fun _ _ => None;
     ImageLoad := fun _ => None;
     PipeOutput := fun _ => Ok ("Loaded image: myimg:latest" +:+ CRLF);
     GetImageID := fun _ => Ok "sha256:deadbeef";
     ImageTag := fun _ _ => Some (ErrNew "invalid reference format") |}.

(** ** Properties of strings used to state what [TrimRight] does *)

(** Every character of [s] is in [cutset]. *)
Fixpoint all_in (cutset s : string) : bool :=
  match s with
  | EmptyString => true
  | String c rest => ContainsByte cutset c && all_in cutset rest
  end.

Fixpoint last_byte (s : string) : option ascii :=
  match s with
  | EmptyString => None
  | String c EmptyString => Some c
  | String _ rest => last_byte rest
  end.

(** ** Further observations and concrete runs *)

Definition is_errorw (e : event) : bool :=
  match e with EvErrorw _ _ => true | _ => false end.
Definition is_pipe (e : event) : bool :=
  match e with EvPipeOutput => true | _ => false end.

(** The last character of [s], if any, is no line terminator. *)
Definition no_terminator_at_end (s : string) : Prop :=
  match last_byte s with
  | Some c => ContainsByte CRLF c = false
  | None => True
  end.

(** A request whose configuration is of another builder. *)
Definition other_input : BuildInput :=
  {| BuildConfig := OtherConfig "*build.DockerGoBuilderConfig";
     TestPlan := "mytest";
     PlanDir := "/plans/mytest" |}.

(** No docker daemon to connect to. *)
Definition no_client_env : Env :=
  {| GOARCH := "amd64";
     NewClientWithOpts := Some (ErrNew "unable to parse docker host");
     Output := fun _ => Ok "/nix/store/abc.tar";
     Open := fun _ _ => None;
     ImageLoad := fun _ => None;
     PipeOutput := fun _ => Ok ("Loaded image: myimg:latest" +:+ CRLF);
     GetImageID := fun _ => Ok "sha256:deadbeef";
     ImageTag := fun _ _ => None |}.

(** The nix executable is not installed: [cmd.Output()] fails with an error
    that is no exit error. *)
Definition nix_missing_env : Env :=
  {| GOARCH := "amd64";
     NewClientWithOpts := None;
     Output := fun _ => Err (ErrNew "exec: nix: executable file not found in PATH");
     Open := fun _ _ => None;
     ImageLoad := fun _ => None;
     PipeOutput := fun _ => Ok ("Loaded image: myimg:latest" +:+ CRLF);
     GetImageID := fun _ => Ok "sha256:deadbeef";
     ImageTag := fun _ _ => None |}.

(** Every ingestion call fails. *)
Definition exhausted_env : Env :=
  {| GOARCH := "amd64";
     NewClientWithOpts := None;
     Output := fun _ => Ok "/nix/store/abc.tar";
     Open := fun _ _ => None;
     ImageLoad := fun _ => Some (ErrNew "EOF");
     PipeOutput := fun _ => Ok ("Loaded image: myimg:latest" +:+ CRLF);
     GetImageID := fun _ => Ok "sha256:deadbeef";
     ImageTag := fun _ _ => None |}.

(** A second request for another plan, with the same configuration object. *)
Definition second_input : BuildInput :=
  {| BuildConfig := PtrDockerNixBuilderConfig 0%nat;
     TestPlan := "othertest";
     PlanDir := "/plans/othertest" |}.

(** * Proofs *)

(** ** Strings *)

Lemma length_eqb_0 (s : string) :
  (String.length s =? 0)%nat = match s with EmptyString => true | _ => false end.
Proof. destruct s; reflexivity. Qed.

Lemma length_ltb_0 (s : string) :
  (0 <? String.length s)%nat = match s with EmptyString => false | _ => true end.
Proof. destruct s; reflexivity. Qed.

Lemma CutPrefix_app (prefix rest : string) :
  CutPrefix (prefix +:+ rest) prefix = Some rest.
Proof.
  induction prefix as [|p prefix IH]; simpl.
  - destruct rest; reflexivity.
  - rewrite Ascii.eqb_refl. exact IH.
Qed.

Lemma CutPrefix_Some (s prefix rest : string) :
  CutPrefix s prefix = Some rest -> s = prefix +:+ rest.
Proof.
  revert s. induction prefix as [|p prefix IH]; intros s; simpl.
  - intros [= <-]; reflexivity.
  - destruct s as [|c s]; [discriminate|].
    destruct (Ascii.eqb c p) eqn:E; [|discriminate].
    apply Ascii.eqb_eq in E. subst c. intros H.
    change (String p s = String p (prefix +:+ rest)). f_equal. apply IH, H.
Qed.

(** With the prefix the tag is the rest of the line, without it the line
    itself; trailing line terminators are dropped in both cases. *)
Lemma default_tag_prefixed (rest : string) :
  default_tag ("Loaded image: " +:+ rest) = TrimRight rest CRLF.
Proof. unfold default_tag, TrimPrefix. rewrite CutPrefix_app. reflexivity. Qed.

Lemma default_tag_prefixless (rsp : string) :
  HasPrefix rsp "Loaded image: " = false -> default_tag rsp = TrimRight rsp CRLF.
Proof.
  unfold default_tag, TrimPrefix, HasPrefix.
  destruct (CutPrefix rsp "Loaded image: "); [discriminate | reflexivity].
Qed.

(** [TrimRight] cuts a suffix made of characters of the cutset, and what it
    keeps does not end in one. *)
Lemma TrimRight_suffix (s cutset : string) :
  exists suffix, s = TrimRight s cutset +:+ suffix /\ all_in cutset suffix = true.
Proof.
  induction s as [|c s [suffix [IH1 IH2]]]; simpl.
  - exists "". split; reflexivity.
  - destruct (TrimRight s cutset) as [|k kept] eqn:E.
    + change (s = suffix) in IH1. subst suffix.
      destruct (ContainsByte cutset c) eqn:Ec.
      * exists (String c s). split; [reflexivity|]. simpl. rewrite Ec, IH2. reflexivity.
      * exists s. split; [reflexivity | exact IH2].
    + exists suffix. split; [|exact IH2].
      change (String c s = String c (String k kept +:+ suffix)). f_equal. exact IH1.
Qed.

Lemma TrimRight_last (s cutset : string) (c : ascii) :
  last_byte (TrimRight s cutset) = Some c -> ContainsByte cutset c = false.
Proof.
  induction s as [|d s IH]; simpl; [discriminate|].
  destruct (TrimRight s cutset) as [|k kept] eqn:E.
  - destruct (ContainsByte cutset d) eqn:Ed; simpl; [discriminate|].
    intros [= <-]. exact Ed.
  - simpl. exact IH.
Qed.

Example TrimRight_path :
  TrimRight ("/nix/store/abc.tar" +:+ String LF EmptyString) CRLF = "/nix/store/abc.tar".
Proof. reflexivity. Qed.

Example default_tag_scenario :
  default_tag ("Loaded image: myimg:latest" +:+ CRLF) = "myimg:latest".
Proof. reflexivity. Qed.

(** ** The stages, one by one *)
Lemma fill_defaults_other env inp type_name s :
  BuildConfig inp = OtherConfig type_name ->
  fill_defaults env inp s
  = (Return None (Some (ErrNew ("expected configuration type DockerNixBuilderConfig, was: "
                                +:+ type_name))), s).
Proof. intros H. unfold fill_defaults. rewrite H. reflexivity. Qed.

Lemma fill_defaults_no_client env inp cfg e s :
  BuildConfig inp = PtrDockerNixBuilderConfig cfg ->
  NewClientWithOpts env = Some e ->
  fill_defaults env inp s = (Return None (Some e), log s [EvNewClient]).
Proof.
  intros H He. unfold fill_defaults. rewrite H.
  unfold bind, client_NewClientWithOpts, bind, emit, pure, go_return. simpl.
  rewrite He. reflexivity.
Qed.

Lemma fill_defaults_nil env inp cfg s :
  BuildConfig inp = PtrDockerNixBuilderConfig cfg ->
  NewClientWithOpts env = None ->
  heap s !! cfg = None ->
  fill_defaults env inp s = (Panic, log s [EvNewClient]).
Proof.
  intros H He Hc. unfold fill_defaults. rewrite H.
  unfold bind, client_NewClientWithOpts, bind, emit, pure, go_return, load. simpl.
  rewrite He. simpl. rewrite Hc. reflexivity.
Qed.

Lemma fill_defaults_ptr env inp cfg c s :
  BuildConfig inp = PtrDockerNixBuilderConfig cfg ->
  NewClientWithOpts env = None ->
  heap s !! cfg = Some c ->
  fill_defaults env inp s
  = match resolved_platform (GOARCH env) (System c) with
    | None =>
        (Return None (Some (ErrNew ("unsupported architecture: " +:+ GOARCH env))),
         log s [EvNewClient])
    | Some sys =>
        (Next cfg,
         with_heap (log s [EvNewClient])
           (<[cfg := {| Enabled := Enabled c;
                        Name := effective_name (TestPlan inp) (Name c);
                        System := sys |}]> (heap s)))
    end.
Proof.
  intros H He Hc. unfold fill_defaults. rewrite H.
  unfold bind at 1. unfold client_NewClientWithOpts, bind at 1, emit, pure. simpl.
  rewrite He. unfold resolved_platform, platform_table, effective_name, with_heap, log.
  unfold bind, load, set_System, set_Name, bind, load, store, go_return, pure. simpl.
  destruct c as [en nm sys]; simpl in *. rewrite Hc. simpl.
  destruct sys as [|a sys]; simpl.
  - destruct (String.eqb (GOARCH env) "arm64"); [|destruct (String.eqb (GOARCH env) "amd64")];
      simpl; rewrite ?Hc; simpl; rewrite ?lookup_insert_eq; simpl; try reflexivity;
      destruct nm; simpl; rewrite ?lookup_insert_eq; simpl;
      rewrite ?insert_insert_eq; reflexivity.
  - rewrite Hc. simpl. destruct nm; simpl; rewrite ?Hc; simpl.
    + reflexivity.
    + rewrite insert_id by assumption. reflexivity.
Qed.

Lemma nix_build_run env inp cfg s :
  nix_build env inp cfg s
  = match heap s !! cfg with
    | None => (Panic, s)
    | Some c =>
        let asked := [EvInfow "nix build" [("target", target (PlanDir inp) c)];
                      EvOutput (argv_of inp c)] in
        match Output env (argv_of inp c) with
        | Ok stdout =>
            (Next (TrimRight stdout CRLF),
             log s (asked ++ [EvInfow "nix build completed"
                                [("path", TrimRight stdout CRLF)]]))
        | Err (ExitError st stderr) =>
            (Return None (Some (ErrWrap "nix build failed: " (ExitError st stderr))),
             log s (asked ++ [EvErrorw "nix build fail result" [("stderr", stderr)]]))
        | Err e =>
            (Return None (Some (ErrWrap "nix build failed: " e)), log s asked)
        end
    end.
Proof.
  unfold nix_build, bind, load, ow_Infow, ow_Errorw, cmd_Output, bind, emit, pure,
    go_return, log, argv_of.
  destruct (heap s !! cfg) as [c|]; [|reflexivity]. simpl.
  destruct (Output env _) as [stdout|[msg|st stderr|p e]]; simpl;
    rewrite <- ?app_assoc; reflexivity.
Qed.

(** *** Identifier and tag *)

Lemma identify_and_tag_run env inp T shown s :
  identify_and_tag env inp T shown s
  = let before := [EvInfow "build completed" [("default_tag", T)]; EvGetImageID T] in
    match GetImageID env T with
    | Err e =>
        (Return None
           (Some (ErrWrap ("couldnt get docker image id: " +:+ shown +:+ ", ") e)),
         log s before)
    | Ok imageID =>
        let tag := TestPlan inp +:+ ":" +:+ imageID in
        (Return (Some {| ArtifactPath := imageID |}) (ImageTag env imageID tag),
         log s (before ++
                [EvInfow "got docker image id" [("image_id", imageID)];
                 EvInfow "tagging image" [("image_id", imageID); ("tag", tag)];
                 EvImageTag imageID tag]))
    end.
Proof.
  unfold identify_and_tag, bind, ow_Infow, docker_GetImageID, cli_ImageTag, bind,
    emit, pure, go_return, log. simpl.
  destruct (GetImageID env T) as [imageID|e]; simpl.
  - destruct (ImageTag env imageID _); simpl; rewrite <- ?app_assoc; reflexivity.
  - rewrite <- ?app_assoc; reflexivity.
Qed.

(** *** The load loop of part_000 *)

Lemma attempted_eq s path es :
  attempted s path es = log (released (opened s path) (next_fd s)) es.
Proof. unfold attempted, log, released, opened. simpl. rewrite <- app_assoc. reflexivity. Qed.

Lemma load_loop_S env path n i tag s :
  Retry.load_loop env path (S n) i tag s
  = match Open env i path with
    | Some e =>
        (Return None (Some (ErrWrap ("couldnt open tarball: " +:+ path +:+ ", ") e)),
         log s [EvOpen path])
    | None =>
        let f := next_fd s in
        match ImageLoad env i with
        | Some _ =>
            Retry.load_loop env path n (S i) tag
              (attempted s path [EvImageLoad f; EvSleep 1000])
        | None =>
            match PipeOutput env i with
            | Err _ =>
                Retry.load_loop env path n (S i) tag
                  (attempted s path [EvImageLoad f; EvPipeOutput; EvSleep 1000])
            | Ok rsp =>
                match default_tag rsp with
                | EmptyString =>
                    Retry.load_loop env path n (S i) ""
                      (attempted s path [EvImageLoad f; EvPipeOutput; EvSleep 1000])
                | T => (Next T, attempted s path [EvImageLoad f; EvPipeOutput])
                end
            end
        end
    end.
Proof.
  simpl. unfold bind at 1. unfold os_Open, bind at 1, emit, pure, go_return. simpl.
  destruct (Open env i path) as [e|]; simpl; [reflexivity|].
  unfold bind at 1. unfold cli_ImageLoad, bind, emit, pure, released. simpl.
  destruct (ImageLoad env i) as [e|]; simpl.
  - unfold time_Sleep, emit, attempted. simpl.
    rewrite <- !app_assoc. reflexivity.
  - unfold docker_PipeOutput, bind, emit, pure. simpl.
    destruct (PipeOutput env i) as [rsp|e]; simpl.
    + rewrite length_ltb_0. destruct (default_tag rsp) eqn:E; simpl.
      * unfold time_Sleep, emit, attempted. simpl.
        rewrite <- !app_assoc. reflexivity.
      * unfold attempted. simpl. rewrite <- !app_assoc. reflexivity.
    + unfold time_Sleep, emit, attempted. simpl.
      rewrite <- !app_assoc. reflexivity.
Qed.

Lemma load_stage_run env path s :
  Retry.load_stage env path s
  = match Retry.load_loop env path 2 0 "" s with
    | (Next EmptyString, s') =>
        (Return None (Some (ErrNew "fail to load docker image")), s')
    | r => r
    end.
Proof.
  unfold Retry.load_stage, bind.
  destruct (Retry.load_loop env path 2 0 "" s) as [[T| |] s']; try reflexivity.
  rewrite length_eqb_0. destruct T; reflexivity.
Qed.

(** *** The single attempt of docker_nix.go *)

Lemma load_and_finish_run env inp path s :
  Single.load_and_finish env inp path s
  = match Open env 0 path with
    | Some e =>
        (Return None (Some (ErrWrap ("couldnt open tarball: " +:+ path +:+ ", ") e)),
         log s [EvOpen path])
    | None =>
        let f := next_fd s in
        match ImageLoad env 0 with
        | Some e =>
            (Return None (Some (ErrWrap "docker image load failed: " e)),
             closed (attempted s path [EvImageLoad f]) f)
        | None =>
            match PipeOutput env 0 with
            | Err e =>
                (Return None
                   (Some (ErrWrap "couldnt read docker image load response: " e)),
                 closed (attempted s path [EvImageLoad f; EvPipeOutput]) f)
            | Ok rsp =>
                let r := identify_and_tag env inp (default_tag rsp) rsp
                           (attempted s path [EvImageLoad f; EvPipeOutput]) in
                (fst r, closed (snd r) f)
            end
        end
    end.
Proof.
  unfold Single.load_and_finish. unfold bind at 1.
  unfold os_Open, bind at 1, emit, pure, go_return. simpl.
  destruct (Open env 0 path) as [e|]; simpl; [reflexivity|].
  unfold with_defer, bind at 1. unfold cli_ImageLoad, bind, emit, pure, released. simpl.
  destruct (ImageLoad env 0) as [e|]; simpl.
  - unfold tarball_Close, bind, emit, closed, attempted. simpl.
    rewrite <- !app_assoc. reflexivity.
  - unfold docker_PipeOutput, bind, emit, pure. simpl.
    destruct (PipeOutput env 0) as [rsp|e]; simpl.
    + match goal with
      | |- (let (o, s') := ?a in _) = (fst ?b, _) =>
          replace b with a by (unfold attempted; simpl; rewrite <- !app_assoc; reflexivity);
          destruct a as [o s']
      end.
      unfold tarball_Close, bind, emit, closed. simpl. reflexivity.
    + unfold tarball_Close, bind, emit, closed, attempted. simpl.
      rewrite <- !app_assoc. reflexivity.
Qed.

Lemma bind_assoc {A B C} (m : M A) (f : A -> M B) (g : B -> M C) s :
  bind (bind m f) g s = bind m (fun a => bind (f a) g) s.
Proof. unfold bind. destruct (m s) as [[a| |] s']; reflexivity. Qed.

Lemma bind_Next {A B} (m : M A) (k : A -> M B) s a s' :
  m s = (Next a, s') -> bind m k s = k a s'.
Proof. intros H. unfold bind. rewrite H. reflexivity. Qed.

Lemma bind_Return {A B} (m : M A) (k : A -> M B) s out err s' :
  m s = (Return out err, s') -> bind m k s = (Return out err, s').
Proof. intros H. unfold bind. rewrite H. reflexivity. Qed.

Lemma bind_Panic {A B} (m : M A) (k : A -> M B) s s' :
  m s = (Panic, s') -> bind m k s = (Panic, s').
Proof. intros H. unfold bind. rewrite H. reflexivity. Qed.

Lemma Retry_Build_prefix env inp s :
  Retry.Build env inp s
  = bind (prefix env inp)
      (fun path => defaultTag <- Retry.load_stage env path ;;
                   identify_and_tag env inp defaultTag defaultTag) s.
Proof. unfold Retry.Build, prefix. rewrite bind_assoc. reflexivity. Qed.

Lemma Single_Build_prefix env inp s :
  Single.Build env inp s
  = bind (prefix env inp)
      (fun path => time_Sleep 100 ;; Single.load_and_finish env inp path) s.
Proof. unfold Single.Build, prefix. rewrite bind_assoc. reflexivity. Qed.

Lemma prefix_run env inp h : prefix_case env inp h (prefix env inp (initial h)).
Proof.
  unfold prefix.
  destruct (BuildConfig inp) as [cfg|type_name] eqn:HB.
  2:{ erewrite bind_Return by (apply fill_defaults_other; eassumption).
      econstructor; eassumption. }
  destruct (NewClientWithOpts env) as [e|] eqn:HC.
  { erewrite bind_Return by (eapply fill_defaults_no_client; eassumption).
    econstructor; eassumption. }
  destruct (h !! cfg) as [c|] eqn:Hh.
  2:{ erewrite bind_Panic by (eapply fill_defaults_nil; eassumption).
      econstructor; eassumption. }
  pose proof (fill_defaults_ptr env inp cfg c (initial h) HB HC Hh) as Hf.
  destruct (resolved_platform (GOARCH env) (System c)) as [sys|] eqn:HP.
  2:{ erewrite bind_Return by exact Hf. eapply prefix_unsupported; eassumption. }
  erewrite bind_Next by exact Hf. rewrite nix_build_run. simpl.
  rewrite lookup_insert_eq. fold (defaulted inp c sys).
  destruct (Output env (argv_of inp (defaulted inp c sys))) as [stdout|e] eqn:HO.
  - eapply prefix_built; eassumption.
  - pose proof (prefix_nix_failed env inp h cfg c sys e HB HC Hh HP HO) as Hcase.
    destruct e; exact Hcase.
Qed.


(** ** Symbolic execution of a run *)

Arguments default_tag : simpl never.
Arguments target : simpl never.
Arguments argv_of : simpl never.
Arguments defaulted : simpl never.
Arguments Retry.load_loop : simpl never.
Arguments Retry.load_stage : simpl never.
Arguments Single.load_and_finish : simpl never.
Arguments identify_and_tag : simpl never.

(** The stage equations are unfolded; an answer of a collaborator that is
    known is used, and any other is split into its cases. *)
Ltac run_step :=
  match goal with
  | |- context [Retry.load_stage _ _ _] => rewrite load_stage_run
  | |- context [Retry.load_loop _ _ (S _) _ _ _] => rewrite load_loop_S
  | |- context [Retry.load_loop _ _ O _ _ _] => unfold Retry.load_loop
  | |- context [Single.load_and_finish _ _ _ _] => rewrite load_and_finish_run
  | |- context [identify_and_tag _ _ _ _ _] => rewrite identify_and_tag_run
  | H : ?x = _ |- context [match ?x with _ => _ end] => rewrite H
  | |- context [match ?x with _ => _ end] =>
      lazymatch x with
      | context [match _ with _ => _ end] => fail
      | _ => destruct x eqn:?
      end
  end.

Ltac run_tail :=
  unfold bind, time_Sleep, emit, pure, built, attempted, closed, log; simpl;
  repeat (run_step; unfold bind, pure, built, attempted, closed, log; simpl).

(** Membership of an event in an explicit list of events. *)
Ltac in_list H :=
  repeat (apply elem_of_cons in H; destruct H as [H|H];
          [try discriminate H|]);
  try (apply elem_of_nil in H; destruct H).

Ltac is_in_list :=
  repeat first [apply list_elem_of_here | apply list_elem_of_further].

(** The property [Q] of a run, once for each way the run can go. *)
Ltac split_prefix env inp h :=
  unfold bind at 1;
  generalize (prefix_run env inp h); generalize (prefix env inp (initial h));
  let r := fresh "r" in let Hr := fresh "Hr" in
  intros r Hr; destruct Hr; run_tail.

Ltac observe Q :=
  subst Q; cbv beta; unfold load_succeeded, events, returned, final, count; simpl.

Ltac split_run v env inp h Q :=
  pattern (Build_of v env inp (initial h));
  match goal with |- ?P _ => set (Q := P) end;
  destruct v; unfold Build_of;
  [rewrite Retry_Build_prefix | rewrite Single_Build_prefix];
  split_prefix env inp h; observe Q.

Ltac split_retry env inp h Q :=
  pattern (Retry.Build env inp (initial h));
  match goal with |- ?P _ => set (Q := P) end;
  rewrite Retry_Build_prefix; split_prefix env inp h; observe Q.

Ltac split_single env inp h Q :=
  pattern (Single.Build env inp (initial h));
  match goal with |- ?P _ => set (Q := P) end;
  rewrite Single_Build_prefix; split_prefix env inp h; observe Q.

Ltac nix_error :=
  try match goal with
      | H : Output _ _ = Err ?e |- _ => is_var e; destruct e; simpl
      end.

Ltac use_answers :=
  repeat match goal with
         | H : ?x = _ |- context [match ?x with _ => _ end] => rewrite H
         end.

Example scenario_retry :
  returned (Retry.Build scenario_env scenario_input (initial scenario_heap))
  = Some (Some {| ArtifactPath := "sha256:deadbeef" |}, None)
  /\ events (Retry.Build scenario_env scenario_input (initial scenario_heap))
     = [ EvNewClient;
         EvInfow "nix build" [("target", "/plans/mytest#legacyPackages.x86_64-linux.mytest-image")];
         EvOutput ["nix"; "build"; "/plans/mytest#legacyPackages.x86_64-linux.mytest-image";
                   "--no-link"; "--print-out-paths"];
         EvInfow "nix build completed" [("path", "/nix/store/abc.tar")];
         EvOpen "/nix/store/abc.tar"; EvImageLoad 3%nat; EvSleep 1000;
         EvOpen "/nix/store/abc.tar"; EvImageLoad 4%nat; EvPipeOutput;
         EvInfow "build completed" [("default_tag", "myimg:latest")];
         EvGetImageID "myimg:latest";
         EvInfow "got docker image id" [("image_id", "sha256:deadbeef")];
         EvInfow "tagging image" [("image_id", "sha256:deadbeef"); ("tag", "mytest:sha256:deadbeef")];
         EvImageTag "sha256:deadbeef" "mytest:sha256:deadbeef" ].
Proof. split; vm_compute; reflexivity. Qed.

(** ** The log line that ends the load stage *)

(** In part_000 the log line "build completed" with tag [T] is written
    exactly by the runs whose load stage falls through with [T]. *)
Lemma load_succeeded_Retry env inp h T :
  load_succeeded (Retry.Build env inp (initial h)) T
  <-> exists path s1 s2,
        prefix env inp (initial h) = (Next path, s1) /\
        Retry.load_stage env path s1 = (Next T, s2).
Proof.
  unfold load_succeeded, events. rewrite Retry_Build_prefix. split.
  - pose proof (prefix_run env inp h) as Hcase.
    destruct (prefix env inp (initial h)) as [[path| |] s1] eqn:Hp.
    + erewrite bind_Next by exact Hp.
      destruct (Retry.load_stage env path s1) as [[T'| |] s2] eqn:Hl.
      * erewrite bind_Next by exact Hl. intros Hin.
        exists path, s1, s2. split; [reflexivity|].
        assert (T = T') as ->; [|exact Hl].
        revert Hl Hin. inversion Hcase; subst. run_tail.
        all: intros Hl Hin; simplify_eq; simpl in Hin; in_list Hin.
        all: congruence.
      * erewrite bind_Return by exact Hl. revert Hl.
        inversion Hcase; subst. run_tail.
        all: intros Hl Hin; simplify_eq; simpl in Hin; in_list Hin.
      * erewrite bind_Panic by exact Hl. revert Hl.
        inversion Hcase; subst. run_tail.
        all: intros Hl Hin; simplify_eq.
    + erewrite bind_Return by exact Hp.
      inversion Hcase; subst; simpl; intros Hin; in_list Hin.
      destruct e; simpl in Hin; in_list Hin.
    + erewrite bind_Panic by exact Hp.
      inversion Hcase; subst; simpl; intros Hin; in_list Hin.
  - intros (path & s1 & s2 & Hp & Hl).
    erewrite bind_Next by exact Hp. erewrite bind_Next by exact Hl.
    rewrite identify_and_tag_run.
    destruct (GetImageID env T); simpl; rewrite elem_of_app; right; is_in_list.
Qed.

(** In docker_nix.go it is written exactly by the runs that read the last
    line of the load response, with the tag computed from that line. *)
Lemma load_succeeded_Single env inp h T :
  load_succeeded (Single.Build env inp (initial h)) T
  <-> exists path s1 rsp,
        prefix env inp (initial h) = (Next path, s1) /\
        Open env 0 path = None /\
        ImageLoad env 0 = None /\
        PipeOutput env 0 = Ok rsp /\
        T = default_tag rsp.
Proof.
  unfold load_succeeded, events. rewrite Single_Build_prefix. split.
  - pose proof (prefix_run env inp h) as Hcase.
    destruct (prefix env inp (initial h)) as [[path| |] s1] eqn:Hp.
    + erewrite bind_Next by exact Hp. intros Hin.
      exists path, s1. revert Hin. inversion Hcase; subst. run_tail.
      all: intros Hin; in_list Hin; simplify_eq.
      all: eexists; repeat split; reflexivity.
    + erewrite bind_Return by exact Hp.
      inversion Hcase; subst; simpl; intros Hin; in_list Hin.
      destruct e; simpl in Hin; in_list Hin.
    + erewrite bind_Panic by exact Hp.
      inversion Hcase; subst; simpl; intros Hin; in_list Hin.
  - intros (path & s1 & rsp & Hp & Ho & Hl & Hr & ->).
    erewrite bind_Next by exact Hp.
    unfold bind, time_Sleep, emit. simpl.
    rewrite load_and_finish_run. simpl. rewrite Ho, Hl, Hr.
    rewrite identify_and_tag_run.
    destruct (GetImageID env (default_tag rsp)); simpl;
      rewrite !elem_of_app; auto 10 using list_elem_of_here, list_elem_of_further.
Qed.

(** ** The identifier and the tag *)



(** ** The nix subprocess fails *)

(** C5: in both variants, when the call of the nix subprocess made by the run
    ends with an exit error carrying the standard error text [stderr], the
    run opens no file and makes no ingestion call, writes [stderr] to the
    output sink, and returns no [BuildOutput] and an error that wraps the
    exit error: unwrapping it gives the exit error, and the standard error
    text is the one carried by it. *)
Theorem nix_failure_stops_run v env inp h argv state stderr :
  let r := Build_of v env inp (initial h) in
  EvOutput argv ∈ events r ->
  Output env argv = Err (ExitError state stderr) ->
  count is_open (events r) = 0%nat /\
  count is_load (events r) = 0%nat /\
  EvErrorw "nix build fail result" [("stderr", stderr)] ∈ events r /\
  exists err,
    returned r = Some (None, Some err) /\
    Unwrap err = Some (ExitError state stderr) /\
    AsExitErrorStderr err = Some stderr /\
    Error err = "nix build failed: " +:+ state.
Proof.
  cbv zeta. split_run v env inp h Q.
  all: nix_error.
  all: intros Hin Hout; in_list Hin; simplify_eq.
  all: match goal with
       | H1 : Output _ ?a = _, H2 : Output _ ?a = _ |- _ =>
           rewrite H1 in H2; simplify_eq
       end.
  all: repeat split; try reflexivity; try is_in_list.
  all: eexists; repeat split; reflexivity.
Qed.

Lemma nix_failure_stops_run_witness :
  let r := Single.Build nix_fails_env scenario_input (initial scenario_heap) in
  let argv := ["nix"; "build";
               "/plans/mytest#legacyPackages.x86_64-linux.mytest-image";
               "--no-link"; "--print-out-paths"] in
  EvOutput argv ∈ events r /\
  Output nix_fails_env argv = Err (ExitError "exit status 1" "error: attribute missing") /\
  count is_open (events r) = 0%nat /\
  count is_load (events r) = 0%nat /\
  EvErrorw "nix build fail result" [("stderr", "error: attribute missing")] ∈ events r /\
  exists err,
    returned r = Some (None, Some err) /\
    Unwrap err = Some (ExitError "exit status 1" "error: attribute missing") /\
    AsExitErrorStderr err = Some "error: attribute missing" /\
    Error err = "nix build failed: exit status 1".
Proof.
  cbv zeta.
  assert (Hin : EvOutput ["nix"; "build";
                          "/plans/mytest#legacyPackages.x86_64-linux.mytest-image";
                          "--no-link"; "--print-out-paths"]
                ∈ events (Single.Build nix_fails_env scenario_input
                            (initial scenario_heap)))
    by (vm_compute; is_in_list).
  split; [exact Hin|]. split; [reflexivity|].
  exact (nix_failure_stops_run Hardened nix_fails_env scenario_input scenario_heap
           _ "exit status 1" "error: attribute missing" Hin eq_refl).
Defined.

(** ** The tagging call fails *)


Example tag_failure_scenario :
  returned (Single.Build tag_fails_env scenario_input (initial scenario_heap))
  = Some (Some {| ArtifactPath := "sha256:deadbeef" |},
          Some (ErrNew "invalid reference format"))
  /\ returned (Retry.Build tag_fails_env scenario_input (initial scenario_heap))
     = Some (Some {| ArtifactPath := "sha256:deadbeef" |},
             Some (ErrNew "invalid reference format")).
Proof. split; vm_compute; reflexivity. Qed.

(** ** The platform *)

Lemma resolved_platform_Some g s sys :
  resolved_platform g s = Some sys ->
  (s = "" /\ g = "arm64" /\ sys = "aarch64-linux")
  \/ (s = "" /\ g = "amd64" /\ sys = "x86_64-linux")
  \/ (s <> "" /\ sys = s).
Proof.
  unfold resolved_platform, platform_table. destruct s as [|a s].
  - destruct (String.eqb g "arm64") eqn:E1.
    + apply String.eqb_eq in E1. intros [= <-]. auto.
    + destruct (String.eqb g "amd64") eqn:E2; [|discriminate].
      apply String.eqb_eq in E2. intros [= <-]. auto.
  - intros [= <-]. right. right. split; [discriminate | reflexivity].
Qed.

Lemma resolved_platform_None g s :
  resolved_platform g s = None -> s = "" /\ g <> "arm64" /\ g <> "amd64".
Proof.
  unfold resolved_platform, platform_table. destruct s as [|a s]; [|discriminate].
  destruct (String.eqb g "arm64") eqn:E1; [discriminate|].
  destruct (String.eqb g "amd64") eqn:E2; [discriminate|].
  apply String.eqb_neq in E1, E2. auto.
Qed.

(** Two answers to the same question are the same answer. *)
Ltac same_answers :=
  repeat match goal with
         | H1 : ?x = _, H2 : ?x = _ |- _ => rewrite H1 in H2; simplify_eq
         end.

(** C8: in both variants, for a run that has its configuration object and its
    docker client: with no platform configured, the nix subprocess is invoked
    (once) for "aarch64-linux" on an arm64 host and for "x86_64-linux" on an
    amd64 host, and on any other host the run ends with the unsupported
    architecture error after the creation of the client and nothing else, so
    before any subprocess; a configured platform is used as it is. *)
Theorem platform_resolution v env inp h cfg c :
  BuildConfig inp = PtrDockerNixBuilderConfig cfg ->
  NewClientWithOpts env = None ->
  h !! cfg = Some c ->
  let r := Build_of v env inp (initial h) in
  let invoked_for (sys : string) :=
    List.filter is_output (events r)
    = [EvOutput ["nix"; "build";
                 PlanDir inp +:+ "#legacyPackages." +:+ sys +:+ "."
                   +:+ effective_name (TestPlan inp) (Name c);
                 "--no-link"; "--print-out-paths"]] in
  (System c = "" -> GOARCH env = "arm64" -> invoked_for "aarch64-linux") /\
  (System c = "" -> GOARCH env = "amd64" -> invoked_for "x86_64-linux") /\
  (System c = "" -> GOARCH env <> "arm64" -> GOARCH env <> "amd64" ->
   returned r = Some (None, Some (ErrNew ("unsupported architecture: " +:+ GOARCH env)))
   /\ events r = [EvNewClient]) /\
  (System c <> "" -> invoked_for (System c)).
Proof.
  intros Hptr Hcli Hc. cbv zeta. split_run v env inp h Q.
  all: try congruence.
  all: nix_error.
  all: same_answers.
  all: match goal with
       | H : resolved_platform _ _ = Some _ |- _ =>
           apply resolved_platform_Some in H;
           destruct H as [(?&?&?)|[(?&?&?)|(?&?)]]
       | H : resolved_platform _ _ = None |- _ =>
           apply resolved_platform_None in H; destruct H as (?&?&?)
       end.
  all: repeat split; intros; try congruence; subst; try reflexivity.
Qed.

Lemma platform_resolution_witness :
  let r := Retry.Build scenario_env scenario_input (initial scenario_heap) in
  BuildConfig scenario_input = PtrDockerNixBuilderConfig 0%nat /\
  NewClientWithOpts scenario_env = None /\
  scenario_heap !! 0%nat = Some {| Enabled := true; Name := ""; System := "" |} /\
  GOARCH scenario_env = "amd64" /\
  List.filter is_output (events r)
  = [EvOutput ["nix"; "build";
               "/plans/mytest#legacyPackages.x86_64-linux.mytest-image";
               "--no-link"; "--print-out-paths"]].
Proof.
  cbv zeta. repeat (split; [reflexivity|]).
  exact (proj1 (proj2 (platform_resolution Baseline scenario_env scenario_input
                         scenario_heap 0%nat
                         {| Enabled := true; Name := ""; System := "" |}
                         eq_refl eq_refl eq_refl))
           eq_refl eq_refl).
Defined.

(** ** The caller's configuration object *)

(** C9, as amended: in both variants the defaults are written through the
    pointer into the caller's configuration object.  A run that has its docker
    client and a platform (configured, or found in the table) leaves the
    object with the platform and with the effective name, and with [Enabled]
    as it was; every other run that has the object leaves the heap as it
    was; no run touches another object. *)
Theorem defaults_written_through_pointer v env inp h cfg c :
  BuildConfig inp = PtrDockerNixBuilderConfig cfg ->
  h !! cfg = Some c ->
  let r := Build_of v env inp (initial h) in
  (forall l, l <> cfg -> heap (final r) !! l = h !! l) /\
  match NewClientWithOpts env, resolved_platform (GOARCH env) (System c) with
  | None, Some sys =>
      heap (final r) !! cfg
      = Some {| Enabled := Enabled c;
                Name := effective_name (TestPlan inp) (Name c);
                System := sys |}
  | _, _ => heap (final r) = h
  end.
Proof.
  intros Hptr Hc. cbv zeta. split_run v env inp h Q.
  all: try congruence.
  all: nix_error.
  all: same_answers.
  all: use_answers.
  all: split; [intros l Hl; rewrite ?lookup_insert_ne by congruence; reflexivity|].
  all: rewrite ?lookup_insert_eq; reflexivity.
Qed.

Lemma defaults_written_through_pointer_witness :
  let r := Retry.Build scenario_env scenario_input (initial scenario_heap) in
  BuildConfig scenario_input = PtrDockerNixBuilderConfig 0%nat /\
  scenario_heap !! 0%nat = Some {| Enabled := true; Name := ""; System := "" |} /\
  (forall l, l <> 0%nat -> heap (final r) !! l = scenario_heap !! l) /\
  heap (final r) !! 0%nat
  = Some {| Enabled := true; Name := "mytest-image"; System := "x86_64-linux" |}.
Proof.
  cbv zeta. repeat (split; [reflexivity|]).
  exact (defaults_written_through_pointer Baseline scenario_env scenario_input
           scenario_heap 0%nat {| Enabled := true; Name := ""; System := "" |}
           eq_refl eq_refl).
Defined.

(** C9, the counterexample: the run of the scenario starts with a
    configuration object without name and platform and ends with both
    written into it. *)
Lemma caller_configuration_modified :
  let r := Retry.Build scenario_env scenario_input (initial scenario_heap) in
  let r' := Single.Build scenario_env scenario_input (initial scenario_heap) in
  scenario_heap !! 0%nat = Some {| Enabled := true; Name := ""; System := "" |} /\
  heap (final r) !! 0%nat
  = Some {| Enabled := true; Name := "mytest-image"; System := "x86_64-linux" |} /\
  heap (final r') !! 0%nat
  = Some {| Enabled := true; Name := "mytest-image"; System := "x86_64-linux" |}.
Proof. cbv zeta. repeat split; vm_compute; reflexivity. Qed.

(** ** The load stage of part_000 *)

(** A run of part_000 that gets past the load stage has a non-empty tag. *)
Lemma Retry_tag_nonempty env inp h T :
  load_succeeded (Retry.Build env inp (initial h)) T -> T <> "".
Proof.
  split_retry env inp h Q. all: nix_error.
  all: intros Hin; in_list Hin; simplify_eq; discriminate.
Qed.

(** A run of part_000 returns a [BuildOutput] only after a load stage that
    ended with a non-empty tag. *)
Lemma Retry_output_needs_tag env inp h out err :
  returned (Retry.Build env inp (initial h)) = Some (Some out, err) ->
  exists T, T <> "" /\ load_succeeded (Retry.Build env inp (initial h)) T.
Proof.
  pose proof (Retry_tag_nonempty env inp h) as Hne. revert Hne.
  split_retry env inp h Q. all: nix_error.
  all: intros Hne Hret; simplify_eq.
  all: eexists; split; [apply Hne|]; is_in_list.
Qed.

(** When every attempt opens the artifact and fails to ingest it, the run of
    part_000 ends with the load error and no [BuildOutput]. *)
Lemma Retry_load_exhausted env inp h path s1 :
  prefix env inp (initial h) = (Next path, s1) ->
  (forall i, (i < 2)%nat -> Open env i path = None /\ ingestion_fails env i) ->
  returned (Retry.Build env inp (initial h))
  = Some (None, Some (ErrNew "fail to load docker image")).
Proof.
  intros Hp Hfail. rewrite Retry_Build_prefix.
  erewrite bind_Next by exact Hp.
  destruct (Hfail 0%nat ltac:(lia)) as [Ho0 [[e0 He0]|[[e0 He0]|[rsp0 [He0 Ht0]]]]];
    destruct (Hfail 1%nat ltac:(lia)) as [Ho1 [[e1 He1]|[[e1 He1]|[rsp1 [He1 Ht1]]]]].
  all: run_tail; reflexivity.
Qed.

(** In docker_nix.go the tag read from the response goes to the identifier
    lookup as it is, empty or not, and the lookup decides the result. *)
Lemma Single_empty_tag env inp h path s1 rsp :
  prefix env inp (initial h) = (Next path, s1) ->
  Open env 0 path = None ->
  ImageLoad env 0 = None ->
  PipeOutput env 0 = Ok rsp ->
  default_tag rsp = "" ->
  EvGetImageID "" ∈ events (Single.Build env inp (initial h)) /\
  returned (Single.Build env inp (initial h))
  = match GetImageID env "" with
    | Ok id =>
        Some (Some {| ArtifactPath := id |},
              ImageTag env id (TestPlan inp +:+ ":" +:+ id))
    | Err e =>
        Some (None,
              Some (ErrWrap ("couldnt get docker image id: " +:+ rsp +:+ ", ") e))
    end.
Proof.
  intros Hp Ho Hl Hr Ht. rewrite Single_Build_prefix.
  erewrite bind_Next by exact Hp.
  unfold bind, time_Sleep, emit. simpl.
  rewrite load_and_finish_run. simpl. rewrite Ho, Hl, Hr, Ht.
  rewrite identify_and_tag_run.
  destruct (GetImageID env ""); unfold events, returned; simpl.
  all: split; [|reflexivity].
  all: rewrite !elem_of_app; auto 10 using list_elem_of_here, list_elem_of_further.
Qed.

(** C1, at the failing input: the load response of docker_nix.go ends in an
    empty line.  The default tag is empty; the run goes on to look up the
    identifier of the empty tag and returns what the lookup decides: the
    lookup error when the runtime knows no such image, a [BuildOutput] when
    it answers.  In neither case is the error the load error, which the run of
    part_000 returns for the same answers. *)
Theorem hardened_looks_up_empty_tag :
  let r := Single.Build empty_line_env scenario_input (initial scenario_heap) in
  let r' := Single.Build empty_line_lenient_env scenario_input (initial scenario_heap) in
  let r'' := Retry.Build empty_line_env scenario_input (initial scenario_heap) in
  default_tag "" = "" /\
  load_succeeded r "" /\
  EvGetImageID "" ∈ events r /\
  returned r
  = Some (None, Some (ErrWrap "couldnt get docker image id: , "
                        (ErrNew "Error: No such image: "))) /\
  returned r' = Some (Some {| ArtifactPath := "sha256:deadbeef" |}, None) /\
  returned r'' = Some (None, Some (ErrNew "fail to load docker image")).
Proof.
  cbv zeta. unfold load_succeeded.
  repeat split; vm_compute; first [reflexivity | is_in_list].
Qed.

(** ** What counts as a loaded image *)

(** C2, the counterexample: the last line "myimg:latest\r\n" does not begin
    with "Loaded image: ", and the run of part_000 takes its first attempt as
    a success with the line, trimmed, as the tag; a last line with the prefix
    and nothing after it gives the empty tag, which is a failed attempt. *)
Lemma prefixless_line_accepted :
  let r := Retry.Build prefixless_env scenario_input (initial scenario_heap) in
  PipeOutput prefixless_env 0 = Ok ("myimg:latest" +:+ CRLF) /\
  HasPrefix ("myimg:latest" +:+ CRLF) "Loaded image: " = false /\
  load_succeeded r "myimg:latest" /\
  count is_sleep (events r) = 0%nat /\
  count is_open (events r) = 1%nat /\
  returned r = Some (Some {| ArtifactPath := "sha256:deadbeef" |}, None) /\
  HasPrefix ("Loaded image: " +:+ CRLF) "Loaded image: " = true /\
  default_tag ("Loaded image: " +:+ CRLF) = "".
Proof.
  cbv zeta. unfold load_succeeded.
  repeat split; vm_compute; first [reflexivity | is_in_list].
Qed.

(** C2, as amended: the default tag of a last line is the line without the
    prefix "Loaded image: ", when it has it, and without trailing line
    terminators.  An attempt of part_000 that reads the line is a success
    with that tag exactly when the tag is not empty, and goes to the delay
    and the next iteration when it is; docker_nix.go hands the tag to the
    identifier lookup without looking at it. *)
Theorem attempt_succeeds_iff_tag_nonempty env inp path n i tag0 s rsp :
  Open env i path = None ->
  ImageLoad env i = None ->
  PipeOutput env i = Ok rsp ->
  let T := match CutPrefix rsp "Loaded image: " with
           | Some rest => TrimRight rest CRLF
           | None => TrimRight rsp CRLF
           end in
  let f := next_fd s in
  (T <> "" ->
   Retry.load_loop env path (S n) i tag0 s
   = (Next T, log (released (opened s path) f) [EvImageLoad f; EvPipeOutput])) /\
  (T = "" ->
   Retry.load_loop env path (S n) i tag0 s
   = Retry.load_loop env path n (S i) ""
       (log (released (opened s path) f)
          [EvImageLoad f; EvPipeOutput; EvSleep 1000])) /\
  (i = 0%nat ->
   Single.load_and_finish env inp path s
   = let r := identify_and_tag env inp T rsp
                (log (released (opened s path) f) [EvImageLoad f; EvPipeOutput]) in
     (fst r, closed (snd r) f)).
Proof.
  intros Ho Hl Hr.
  assert (HT : default_tag rsp
               = match CutPrefix rsp "Loaded image: " with
                 | Some rest => TrimRight rest CRLF
                 | None => TrimRight rsp CRLF
                 end).
  { unfold default_tag, TrimPrefix.
    destruct (CutPrefix rsp "Loaded image: "); reflexivity. }
  cbv zeta. rewrite <- HT. repeat split.
  - intros Hne. rewrite load_loop_S, Ho, Hl, Hr. cbv zeta.
    destruct (default_tag rsp); [congruence | rewrite attempted_eq; reflexivity].
  - intros He. rewrite load_loop_S, Ho, Hl, Hr, He. cbv zeta.
    rewrite attempted_eq. reflexivity.
  - intros ->. rewrite load_and_finish_run, Ho, Hl, Hr. cbv zeta.
    rewrite attempted_eq. reflexivity.
Qed.

Lemma attempt_succeeds_iff_tag_nonempty_witness :
  Open prefixless_env 0 "/nix/store/abc.tar" = None /\
  ImageLoad prefixless_env 0 = None /\
  PipeOutput prefixless_env 0 = Ok ("myimg:latest" +:+ CRLF) /\
  Retry.load_loop prefixless_env "/nix/store/abc.tar" 2 0 "" (initial ∅)
  = (Next "myimg:latest",
     log (released (opened (initial ∅) "/nix/store/abc.tar") 3%nat)
       [EvImageLoad 3%nat; EvPipeOutput]).
Proof.
  repeat (split; [reflexivity|]).
  refine (proj1 (attempt_succeeds_iff_tag_nonempty prefixless_env scenario_input
                   "/nix/store/abc.tar" 1 0 "" (initial ∅)
                   ("myimg:latest" +:+ CRLF) eq_refl eq_refl eq_refl) _).
  discriminate.
Defined.

(** ** Retries *)

Lemma prefix_first_try env k inp s :
  prefix (first_try env k) inp s = prefix env inp s.
Proof. reflexivity. Qed.

(** The three ways in which an ingestion fails. *)
Ltac failed_ingestion H :=
  destruct H as [[? ?]|[[? ?]|[? [? ?]]]].

(** C3: in part_000, when the run has its artifact path, the attempts before
    attempt [k] (counted from 0, so [k < 2] is the bound of two attempts) open
    the artifact and fail to ingest it, and attempt [k] reads a non-empty tag,
    then the load stage ends with that tag, and the run returns the same
    results and leaves the same heap as the run in which that attempt is the
    first one, a run without delay and with one opening of the artifact; when
    the lookup and the tagging succeed, the run returns the [BuildOutput]
    and no error. *)
Theorem retry_transparency env inp h path s1 k rsp :
  prefix env inp (initial h) = (Next path, s1) ->
  (k < 2)%nat ->
  (forall j, (j < k)%nat -> Open env j path = None /\ ingestion_fails env j) ->
  Open env k path = None ->
  ImageLoad env k = None ->
  PipeOutput env k = Ok rsp ->
  default_tag rsp <> "" ->
  let r := Retry.Build env inp (initial h) in
  let r1 := Retry.Build (first_try env k) inp (initial h) in
  load_succeeded r (default_tag rsp) /\
  returned r = returned r1 /\
  heap (final r) = heap (final r1) /\
  load_succeeded r1 (default_tag rsp) /\
  count is_sleep (events r1) = 0%nat /\
  count is_open (events r1) = 1%nat /\
  (forall id,
      GetImageID env (default_tag rsp) = Ok id ->
      ImageTag env id (TestPlan inp +:+ ":" +:+ id) = None ->
      returned r = Some (Some {| ArtifactPath := id |}, None)).
Proof.
  intros Hp Hk Hfail Ho Hl Hr Hne. cbv zeta.
  pattern (Retry.Build (first_try env k) inp (initial h)),
          (Retry.Build env inp (initial h)).
  match goal with |- ?P _ _ => set (Q := P) end.
  rewrite !Retry_Build_prefix.
  change (prefix (first_try env k) inp) with (prefix env inp).
  erewrite !(bind_Next (prefix env inp)) by exact Hp.
  pose proof (prefix_run env inp h) as Hcase. rewrite Hp in Hcase.
  inversion Hcase; subst. clear Hcase Hp.
  destruct (default_tag rsp) as [|a T] eqn:HT; [congruence|].
  destruct k as [|[|k]]; [| |lia].
  - run_tail.
    all: observe Q; repeat split; try is_in_list.
    all: intros; simplify_eq; try congruence.
  - destruct (Hfail 0%nat ltac:(lia)) as [Ho0 Hf0]. failed_ingestion Hf0.
    all: run_tail.
    all: observe Q; repeat split; try is_in_list.
    all: intros; simplify_eq; try congruence.
Qed.

Lemma retry_transparency_witness :
  let r := Retry.Build scenario_env scenario_input (initial scenario_heap) in
  let r1 := Retry.Build (first_try scenario_env 1) scenario_input
              (initial scenario_heap) in
  fst (prefix scenario_env scenario_input (initial scenario_heap))
  = Next "/nix/store/abc.tar" /\
  ingestion_fails scenario_env 0 /\
  PipeOutput scenario_env 1 = Ok ("Loaded image: myimg:latest" +:+ CRLF) /\
  load_succeeded r "myimg:latest" /\
  returned r = returned r1 /\
  heap (final r) = heap (final r1) /\
  load_succeeded r1 "myimg:latest" /\
  count is_sleep (events r1) = 0%nat /\
  count is_open (events r1) = 1%nat /\
  (forall id,
      GetImageID scenario_env "myimg:latest" = Ok id ->
      ImageTag scenario_env id (TestPlan scenario_input +:+ ":" +:+ id) = None ->
      returned r = Some (Some {| ArtifactPath := id |}, None)).
Proof.
  cbv zeta.
  assert (Hf : ingestion_fails scenario_env 0) by (left; eexists; reflexivity).
  split; [reflexivity|]. split; [exact Hf|]. split; [reflexivity|].
  refine (retry_transparency scenario_env scenario_input scenario_heap
            "/nix/store/abc.tar"
            (snd (prefix scenario_env scenario_input (initial scenario_heap)))
            1 ("Loaded image: myimg:latest" +:+ CRLF)
            eq_refl _ _ eq_refl eq_refl eq_refl _).
  - lia.
  - intros j Hj. assert (j = 0%nat) as -> by lia. split; [reflexivity | exact Hf].
  - discriminate.
Defined.

(** ** The artifact cannot be opened *)

(** C4, the counterexample: the artifact is not there at the first attempt
    and is there at the second; the run of part_000 ends at the first failed
    opening, with no delay and no second opening. *)
Lemma open_failure_not_retried :
  let r := Retry.Build late_file_env scenario_input (initial scenario_heap) in
  Open late_file_env 0 "/nix/store/abc.tar"
  = Some (ErrNew "open /nix/store/abc.tar: no such file or directory") /\
  Open late_file_env 1 "/nix/store/abc.tar" = None /\
  returned r
  = Some (None,
          Some (ErrWrap "couldnt open tarball: /nix/store/abc.tar, "
                  (ErrNew "open /nix/store/abc.tar: no such file or directory"))) /\
  count is_sleep (events r) = 0%nat /\
  count is_open (events r) = 1%nat /\
  count is_load (events r) = 0%nat.
Proof. cbv zeta. repeat split; vm_compute; reflexivity. Qed.

(** C4, as amended: in part_000 a failure to open the artifact ends the run
    at once, at the first attempt as at the second: the run returns no
    [BuildOutput] and the error "couldnt open tarball: <path>, <cause>", the
    failed opening is its last event, and the only delays are those after the
    failed ingestions of the attempts before. *)
Theorem open_failure_is_fatal env inp h path s1 k e :
  prefix env inp (initial h) = (Next path, s1) ->
  (k < 2)%nat ->
  (forall j, (j < k)%nat -> Open env j path = None /\ ingestion_fails env j) ->
  Open env k path = Some e ->
  let r := Retry.Build env inp (initial h) in
  returned r
  = Some (None, Some (ErrWrap ("couldnt open tarball: " +:+ path +:+ ", ") e)) /\
  last (events r) = Some (EvOpen path) /\
  count is_open (events r) = S k /\
  count is_sleep (events r) = k.
Proof.
  intros Hp Hk Hfail Ho. cbv zeta.
  rewrite !Retry_Build_prefix.
  erewrite (bind_Next (prefix env inp)) by exact Hp.
  pose proof (prefix_run env inp h) as Hcase. rewrite Hp in Hcase.
  inversion Hcase; subst. clear Hcase Hp.
  destruct k as [|[|k]]; [| |lia].
  - run_tail. unfold events, returned, count; simpl. repeat split.
  - destruct (Hfail 0%nat ltac:(lia)) as [Ho0 Hf0]. failed_ingestion Hf0.
    all: run_tail.
    all: unfold events, returned, count; simpl; repeat split.
Qed.

Lemma open_failure_is_fatal_witness :
  let r := Retry.Build late_file_env scenario_input (initial scenario_heap) in
  fst (prefix late_file_env scenario_input (initial scenario_heap))
  = Next "/nix/store/abc.tar" /\
  Open late_file_env 0 "/nix/store/abc.tar"
  = Some (ErrNew "open /nix/store/abc.tar: no such file or directory") /\
  returned r
  = Some (None,
          Some (ErrWrap ("couldnt open tarball: " +:+ "/nix/store/abc.tar" +:+ ", ")
                  (ErrNew "open /nix/store/abc.tar: no such file or directory"))) /\
  last (events r) = Some (EvOpen "/nix/store/abc.tar") /\
  count is_open (events r) = 1%nat /\
  count is_sleep (events r) = 0%nat.
Proof.
  cbv zeta. split; [reflexivity|]. split; [reflexivity|].
  refine (open_failure_is_fatal late_file_env scenario_input scenario_heap
            "/nix/store/abc.tar"
            (snd (prefix late_file_env scenario_input (initial scenario_heap)))
            0 _ eq_refl _ _ eq_refl).
  - lia.
  - intros j Hj. lia.
Defined.

(** ** File handles *)

(** A run of docker_nix.go leaves no descriptor open: the deferred
    [tarball.Close()] runs on every way out. *)
Lemma Single_releases_handle env inp h :
  open_files (final (Single.Build env inp (initial h))) = [].
Proof.
  split_single env inp h Q. all: nix_error. all: reflexivity.
Qed.

(** C10: in both variants no descriptor is open when a run ends, whichever
    way it ends (a result, an error before or after the load stage, the load
    error after the last attempt), and at no time of a run is more than one
    descriptor open, so that the file of an attempt is released before the
    artifact is opened again: one descriptor at most, and exactly one in the
    runs that reach an ingestion call.  In part_000 the release is that of
    the ingestion call, to which every opened file is handed; docker_nix.go
    defers a close of its own as well. *)
Theorem handles_released v env inp h :
  let r := Build_of v env inp (initial h) in
  open_files (final r) = [] /\
  (peak_open (final r) <= 1)%nat /\
  peak_open (final r) = Nat.min 1 (count is_load (events r)).
Proof.
  cbv zeta. split_run v env inp h Q. all: nix_error.
  all: repeat split; try reflexivity; vm_compute; lia.
Qed.

(** * Further properties of the two files *)

(** ** Failures before the nix subprocess *)

(** X1: in both variants, a request whose configuration is not a pointer to a
    [DockerNixBuilderConfig] is refused with an error that names the type of
    the value, before anything else happens: no client is created, nothing is
    logged, and the heap is as it was. *)
Theorem config_type_mismatch v env inp h type_name :
  BuildConfig inp = OtherConfig type_name ->
  Build_of v env inp (initial h)
  = (Return None
       (Some (ErrNew ("expected configuration type DockerNixBuilderConfig, was: "
                      +:+ type_name))),
     initial h).
Proof.
  intros Hc. destruct v; unfold Build_of;
    [rewrite Retry_Build_prefix | rewrite Single_Build_prefix];
    apply bind_Return; unfold prefix; apply bind_Return;
    apply fill_defaults_other; exact Hc.
Qed.

Lemma config_type_mismatch_witness :
  BuildConfig other_input = OtherConfig "*build.DockerGoBuilderConfig" /\
  Retry.Build scenario_env other_input (initial scenario_heap)
  = (Return None
       (Some (ErrNew ("expected configuration type DockerNixBuilderConfig, was: "
                      +:+ "*build.DockerGoBuilderConfig"))),
     initial scenario_heap).
Proof.
  split; [reflexivity|].
  exact (config_type_mismatch Baseline scenario_env other_input scenario_heap
           "*build.DockerGoBuilderConfig" eq_refl).
Defined.

(** X2: in both variants, when the docker client cannot be created, the run
    returns the client's error as it is (not wrapped) and no [BuildOutput];
    the creation of the client is its only event, the configuration object is
    not read, and the heap is as it was. *)
Theorem client_failure_returned_as_is v env inp h cfg e :
  BuildConfig inp = PtrDockerNixBuilderConfig cfg ->
  NewClientWithOpts env = Some e ->
  Build_of v env inp (initial h)
  = (Return None (Some e), log (initial h) [EvNewClient]).
Proof.
  intros Hc He. destruct v; unfold Build_of;
    [rewrite Retry_Build_prefix | rewrite Single_Build_prefix];
    apply bind_Return; unfold prefix; apply bind_Return;
    eapply fill_defaults_no_client; eassumption.
Qed.

Lemma client_failure_returned_as_is_witness :
  BuildConfig scenario_input = PtrDockerNixBuilderConfig 0%nat /\
  NewClientWithOpts no_client_env = Some (ErrNew "unable to parse docker host") /\
  Single.Build no_client_env scenario_input (initial scenario_heap)
  = (Return None (Some (ErrNew "unable to parse docker host")),
     log (initial scenario_heap) [EvNewClient]).
Proof.
  split; [reflexivity|]. split; [reflexivity|].
  exact (client_failure_returned_as_is Hardened no_client_env scenario_input
           scenario_heap 0%nat _ eq_refl eq_refl).
Defined.

(** X3: in both variants, when the configuration is a pointer of the right
    type to no object (a nil pointer) and the docker client was created, the
    run does not return: it ends in the nil pointer dereference of the first
    read of the configuration, with the creation of the client as its only
    event, before anything is logged and before nix is invoked. *)
Theorem nil_config_pointer_panics v env inp h cfg :
  BuildConfig inp = PtrDockerNixBuilderConfig cfg ->
  NewClientWithOpts env = None ->
  h !! cfg = None ->
  Build_of v env inp (initial h) = (Panic, log (initial h) [EvNewClient]).
Proof.
  intros Hc He Hn. destruct v; unfold Build_of;
    [rewrite Retry_Build_prefix | rewrite Single_Build_prefix];
    apply bind_Panic; unfold prefix; apply bind_Panic;
    eapply fill_defaults_nil; eassumption.
Qed.

Lemma nil_config_pointer_panics_witness :
  BuildConfig scenario_input = PtrDockerNixBuilderConfig 0%nat /\
  NewClientWithOpts scenario_env = None /\
  (∅ : gmap loc DockerNixBuilderConfig) !! 0%nat = None /\
  Retry.Build scenario_env scenario_input (initial ∅)
  = (Panic, log (initial ∅) [EvNewClient]).
Proof.
  do 3 (split; [reflexivity|]).
  exact (nil_config_pointer_panics Baseline scenario_env scenario_input ∅ 0%nat
           eq_refl eq_refl eq_refl).
Defined.

(** X4: in both variants a run that returns no error returns a [BuildOutput];
    its identifier is the one the runtime gave for the default tag of the load
    stage, and the tagging call for "<plan>:<identifier>", the only tagging
    call of the run, succeeded.  So no run returns neither a [BuildOutput]
    nor an error. *)
Theorem success_means_tagged v env inp h out :
  let r := Build_of v env inp (initial h) in
  returned r = Some (out, None) ->
  exists T id,
    out = Some {| ArtifactPath := id |} /\
    load_succeeded r T /\
    GetImageID env T = Ok id /\
    ImageTag env id (TestPlan inp +:+ ":" +:+ id) = None /\
    List.filter is_tagging (events r)
    = [EvImageTag id (TestPlan inp +:+ ":" +:+ id)].
Proof.
  cbv zeta. split_run v env inp h Q. all: nix_error.
  all: intros Hret; simplify_eq.
  all: do 2 eexists; repeat split; try eassumption; try is_in_list.
Qed.

Lemma success_means_tagged_witness :
  let r := Retry.Build scenario_env scenario_input (initial scenario_heap) in
  returned r = Some (Some {| ArtifactPath := "sha256:deadbeef" |}, None) /\
  exists T id,
    Some {| ArtifactPath := "sha256:deadbeef" |} = Some {| ArtifactPath := id |} /\
    load_succeeded r T /\
    GetImageID scenario_env T = Ok id /\
    ImageTag scenario_env id (TestPlan scenario_input +:+ ":" +:+ id) = None /\
    List.filter is_tagging (events r)
    = [EvImageTag id (TestPlan scenario_input +:+ ":" +:+ id)].
Proof.
  cbv zeta. split; [reflexivity|].
  exact (success_means_tagged Baseline scenario_env scenario_input scenario_heap
           _ eq_refl).
Defined.

(** ** The nix subprocess *)

(** X5: in both variants the nix subprocess is run at most once, as
    "nix build <target> --no-link --print-out-paths", for the target that the
    line logged before it shows; the client creation, that log line and the
    call are the first three events of the run. *)
Theorem nix_invoked_once_with_fixed_flags v env inp h argv :
  let r := Build_of v env inp (initial h) in
  EvOutput argv ∈ events r ->
  exists t,
    argv = ["nix"; "build"; t; "--no-link"; "--print-out-paths"] /\
    List.filter is_output (events r) = [EvOutput argv] /\
    take 3 (events r)
    = [EvNewClient; EvInfow "nix build" [("target", t)]; EvOutput argv].
Proof.
  cbv zeta. split_run v env inp h Q. all: nix_error.
  all: intros Hin; in_list Hin; simplify_eq.
  all: eexists; repeat split.
Qed.

Lemma nix_invoked_once_with_fixed_flags_witness :
  let r := Retry.Build scenario_env scenario_input (initial scenario_heap) in
  let argv := ["nix"; "build";
               "/plans/mytest#legacyPackages.x86_64-linux.mytest-image";
               "--no-link"; "--print-out-paths"] in
  EvOutput argv ∈ events r /\
  exists t,
    argv = ["nix"; "build"; t; "--no-link"; "--print-out-paths"] /\
    List.filter is_output (events r) = [EvOutput argv] /\
    take 3 (events r)
    = [EvNewClient; EvInfow "nix build" [("target", t)]; EvOutput argv].
Proof.
  cbv zeta.
  assert (Hin : EvOutput ["nix"; "build";
                          "/plans/mytest#legacyPackages.x86_64-linux.mytest-image";
                          "--no-link"; "--print-out-paths"]
                ∈ events (Retry.Build scenario_env scenario_input
                            (initial scenario_heap)))
    by (vm_compute; is_in_list).
  split; [exact Hin|].
  exact (nix_invoked_once_with_fixed_flags Baseline scenario_env scenario_input
           scenario_heap _ Hin).
Defined.

(** X6: in both variants, whatever error the call of the nix subprocess
    returns, the run returns no [BuildOutput] and that error wrapped as
    "nix build failed: ...", and goes no further: no file is opened, no
    ingestion call and no lookup is made.  The standard error text is written
    to the output sink only when the error is itself an exit error; for any
    other error (the executable is missing, an exit error wrapped by
    another) nothing is written. *)
Theorem nix_error_wrapped_and_final v env inp h argv e :
  let r := Build_of v env inp (initial h) in
  EvOutput argv ∈ events r ->
  Output env argv = Err e ->
  returned r = Some (None, Some (ErrWrap "nix build failed: " e)) /\
  count is_open (events r) = 0%nat /\
  count is_load (events r) = 0%nat /\
  count is_lookup (events r) = 0%nat /\
  List.filter is_errorw (events r)
  = match e with
    | ExitError _ stderr => [EvErrorw "nix build fail result" [("stderr", stderr)]]
    | _ => []
    end.
Proof.
  cbv zeta. split_run v env inp h Q. all: nix_error.
  all: intros Hin Hout; in_list Hin; simplify_eq.
  all: match goal with
       | H1 : Output _ ?a = _, H2 : Output _ ?a = _ |- _ =>
           rewrite H1 in H2; simplify_eq
       end.
  all: repeat split.
Qed.

Lemma nix_error_wrapped_and_final_witness :
  let r := Retry.Build nix_missing_env scenario_input (initial scenario_heap) in
  let argv := ["nix"; "build";
               "/plans/mytest#legacyPackages.x86_64-linux.mytest-image";
               "--no-link"; "--print-out-paths"] in
  let e := ErrNew "exec: nix: executable file not found in PATH" in
  EvOutput argv ∈ events r /\
  Output nix_missing_env argv = Err e /\
  returned r = Some (None, Some (ErrWrap "nix build failed: " e)) /\
  count is_open (events r) = 0%nat /\
  count is_load (events r) = 0%nat /\
  count is_lookup (events r) = 0%nat /\
  List.filter is_errorw (events r) = [].
Proof.
  cbv zeta.
  assert (Hin : EvOutput ["nix"; "build";
                          "/plans/mytest#legacyPackages.x86_64-linux.mytest-image";
                          "--no-link"; "--print-out-paths"]
                ∈ events (Retry.Build nix_missing_env scenario_input
                            (initial scenario_heap)))
    by (vm_compute; is_in_list).
  split; [exact Hin|]. split; [reflexivity|].
  exact (nix_error_wrapped_and_final Baseline nix_missing_env scenario_input
           scenario_heap _ _ Hin eq_refl).
Defined.

(** The characters that [TrimRight] removes for the cutset of the builder. *)
Lemma TrimRight_CRLF_no_terminator (s : string) :
  no_terminator_at_end (TrimRight s CRLF).
Proof.
  unfold no_terminator_at_end.
  destruct (last_byte (TrimRight s CRLF)) as [c|] eqn:E; [|exact I].
  eapply TrimRight_last; exact E.
Qed.

(** X7: in both variants every file that a run opens is the artifact path:
    the standard output of the one nix call, which succeeded, without its
    trailing line terminators; the path does not end in a carriage return or
    a line feed. *)
Theorem opened_path_is_trimmed_stdout v env inp h path :
  let r := Build_of v env inp (initial h) in
  EvOpen path ∈ events r ->
  no_terminator_at_end path /\
  exists argv stdout,
    List.filter is_output (events r) = [EvOutput argv] /\
    Output env argv = Ok stdout /\
    path = TrimRight stdout CRLF.
Proof.
  cbv zeta. split_run v env inp h Q. all: nix_error.
  all: intros Hin; in_list Hin; simplify_eq.
  all: split; [apply TrimRight_CRLF_no_terminator|].
  all: do 2 eexists; repeat split; eassumption.
Qed.

Lemma opened_path_is_trimmed_stdout_witness :
  let r := Single.Build scenario_env scenario_input (initial scenario_heap) in
  EvOpen "/nix/store/abc.tar" ∈ events r /\
  no_terminator_at_end "/nix/store/abc.tar" /\
  exists argv stdout,
    List.filter is_output (events r) = [EvOutput argv] /\
    Output scenario_env argv = Ok stdout /\
    "/nix/store/abc.tar" = TrimRight stdout CRLF.
Proof.
  cbv zeta.
  assert (Hin : EvOpen "/nix/store/abc.tar"
                ∈ events (Single.Build scenario_env scenario_input
                            (initial scenario_heap)))
    by (vm_compute; is_in_list).
  split; [exact Hin|].
  exact (opened_path_is_trimmed_stdout Hardened scenario_env scenario_input
           scenario_heap _ Hin).
Defined.

(** ** The default tag *)

Lemma TrimRight_all_in (s cutset : string) :
  all_in cutset s = true -> TrimRight s cutset = "".
Proof.
  induction s as [|c s IH]; simpl; [reflexivity|].
  intros [Hc Hs]%andb_prop. rewrite (IH Hs), Hc. reflexivity.
Qed.

Lemma TrimRight_app_all_in (t suffix cutset : string) :
  all_in cutset suffix = true ->
  TrimRight (t +:+ suffix) cutset = TrimRight t cutset.
Proof.
  intros Hs. induction t as [|c t IH].
  - change ("" +:+ suffix) with suffix. apply TrimRight_all_in, Hs.
  - change (String c t +:+ suffix) with (String c (t +:+ suffix)).
    simpl. rewrite IH. reflexivity.
Qed.

Lemma TrimRight_fixed (t cutset : string) :
  match last_byte t with
  | Some c => ContainsByte cutset c = false
  | None => True
  end ->
  TrimRight t cutset = t.
Proof.
  induction t as [|c t IH]; [reflexivity|].
  destruct t as [|d t].
  - simpl. intros ->. reflexivity.
  - intros H. change (last_byte (String c (String d t))) with (last_byte (String d t)) in H.
    specialize (IH H). change (TrimRight (String c (String d t)) cutset)
      with (match TrimRight (String d t) cutset with
            | EmptyString => if ContainsByte cutset c then EmptyString
                             else String c EmptyString
            | kept => String c kept
            end).
    rewrite IH. reflexivity.
Qed.

(** X8: the tag is read back from the line that the runtime writes for it: for
    a tag that does not end in a carriage return or a line feed, the default
    tag of "Loaded image: " followed by the tag and any run of line
    terminators is the tag. *)
Theorem default_tag_roundtrip (t suffix : string) :
  no_terminator_at_end t ->
  all_in CRLF suffix = true ->
  default_tag ("Loaded image: " +:+ t +:+ suffix) = t.
Proof.
  intros Ht Hs. rewrite default_tag_prefixed, TrimRight_app_all_in by exact Hs.
  apply TrimRight_fixed. exact Ht.
Qed.

Lemma default_tag_roundtrip_witness :
  no_terminator_at_end "myimg:latest" /\
  all_in CRLF CRLF = true /\
  default_tag ("Loaded image: " +:+ "myimg:latest" +:+ CRLF) = "myimg:latest".
Proof.
  assert (Ht : no_terminator_at_end "myimg:latest") by reflexivity.
  split; [exact Ht|]. split; [reflexivity|].
  exact (default_tag_roundtrip "myimg:latest" CRLF Ht eq_refl).
Defined.

(** X9: in both variants every tag whose identifier a run asks for is the
    default tag of a load response that the run read after a successful
    ingestion call, and does not end in a carriage return or a line feed; in
    part_000 the response is that of one of the two attempts and the tag is
    not empty, in docker_nix.go it is that of the only attempt. *)
Theorem looked_up_tag_origin v env inp h T :
  let r := Build_of v env inp (initial h) in
  EvGetImageID T ∈ events r ->
  no_terminator_at_end T /\
  (exists i rsp,
      (i < 2)%nat /\ ImageLoad env i = None /\ PipeOutput env i = Ok rsp /\
      T = default_tag rsp) /\
  match v with
  | Baseline => T <> ""
  | Hardened => exists rsp, PipeOutput env 0 = Ok rsp /\ T = default_tag rsp
  end.
Proof.
  cbv zeta. split_run v env inp h Q. all: nix_error.
  all: intros Hin; in_list Hin; simplify_eq.
  all: repeat split; try discriminate; eauto.
  all: try match goal with
           | H : default_tag _ = ?T |- no_terminator_at_end ?T =>
               rewrite <- H; apply TrimRight_CRLF_no_terminator
           | |- no_terminator_at_end (default_tag _) =>
               apply TrimRight_CRLF_no_terminator
           end.
  all: match goal with
       | H : PipeOutput _ ?i = Ok ?rsp |- _ =>
           exists i, rsp;
           (split; [lia | split; [assumption | split; [assumption | congruence]]])
       end.
Qed.

Lemma looked_up_tag_origin_witness :
  let r := Retry.Build scenario_env scenario_input (initial scenario_heap) in
  EvGetImageID "myimg:latest" ∈ events r /\
  no_terminator_at_end "myimg:latest" /\
  (exists i rsp,
      (i < 2)%nat /\ ImageLoad scenario_env i = None /\
      PipeOutput scenario_env i = Ok rsp /\ "myimg:latest" = default_tag rsp) /\
  "myimg:latest" <> "".
Proof.
  cbv zeta.
  assert (Hin : EvGetImageID "myimg:latest"
                ∈ events (Retry.Build scenario_env scenario_input
                            (initial scenario_heap)))
    by (vm_compute; is_in_list).
  split; [exact Hin|].
  exact (looked_up_tag_origin Baseline scenario_env scenario_input scenario_heap
           _ Hin).
Defined.

(** ** The bounds of the two load stages *)

(** X10: a run of part_000 opens the artifact at most twice; it makes an
    ingestion call only with a file it has opened, reads a response only
    after an ingestion call, sleeps only after an ingestion call, and every
    sleep lasts one second; it asks for at most one identifier and tags at
    most once, after a lookup. *)
Theorem retry_bounds env inp h :
  let r := Retry.Build env inp (initial h) in
  (count is_open (events r) <= 2)%nat /\
  (count is_load (events r) <= count is_open (events r))%nat /\
  (count is_pipe (events r) <= count is_load (events r))%nat /\
  (count is_sleep (events r) <= count is_load (events r))%nat /\
  (forall ms, EvSleep ms ∈ events r -> ms = 1000) /\
  (count is_lookup (events r) <= 1)%nat /\
  (count is_tagging (events r) <= count is_lookup (events r))%nat.
Proof.
  cbv zeta. split_retry env inp h Q. all: nix_error.
  all: repeat split; try lia.
  all: intros ms Hin; in_list Hin; simplify_eq; reflexivity.
Qed.

(** X11: when the run of part_000 has its artifact path and both attempts
    open the artifact and fail to ingest it, the run returns no [BuildOutput]
    and the error "fail to load docker image"; it has opened the artifact
    twice, asked for no identifier, and slept after each attempt, the second
    as well: the last thing it does before returning is to sleep. *)
Theorem retry_exhaustion env inp h path s1 :
  prefix env inp (initial h) = (Next path, s1) ->
  (forall i, (i < 2)%nat -> Open env i path = None /\ ingestion_fails env i) ->
  let r := Retry.Build env inp (initial h) in
  returned r = Some (None, Some (ErrNew "fail to load docker image")) /\
  count is_open (events r) = 2%nat /\
  count is_load (events r) = 2%nat /\
  count is_sleep (events r) = 2%nat /\
  count is_lookup (events r) = 0%nat /\
  last (events r) = Some (EvSleep 1000).
Proof.
  intros Hp Hfail. cbv zeta.
  pattern (Retry.Build env inp (initial h)).
  match goal with |- ?P _ => set (Q := P) end.
  rewrite Retry_Build_prefix.
  erewrite (bind_Next (prefix env inp)) by exact Hp.
  pose proof (prefix_run env inp h) as Hcase. rewrite Hp in Hcase.
  inversion Hcase; subst. clear Hcase Hp.
  destruct (Hfail 0%nat ltac:(lia)) as [Ho0 Hf0].
  destruct (Hfail 1%nat ltac:(lia)) as [Ho1 Hf1].
  failed_ingestion Hf0; failed_ingestion Hf1.
  all: run_tail; observe Q; repeat split.
Qed.

Lemma retry_exhaustion_witness :
  let r := Retry.Build exhausted_env scenario_input (initial scenario_heap) in
  fst (prefix exhausted_env scenario_input (initial scenario_heap))
  = Next "/nix/store/abc.tar" /\
  ingestion_fails exhausted_env 0 /\
  ingestion_fails exhausted_env 1 /\
  returned r = Some (None, Some (ErrNew "fail to load docker image")) /\
  count is_open (events r) = 2%nat /\
  count is_load (events r) = 2%nat /\
  count is_sleep (events r) = 2%nat /\
  count is_lookup (events r) = 0%nat /\
  last (events r) = Some (EvSleep 1000).
Proof.
  cbv zeta.
  assert (Hf : forall i, ingestion_fails exhausted_env i)
    by (intros i; left; eexists; reflexivity).
  split; [reflexivity|]. split; [apply Hf|]. split; [apply Hf|].
  refine (retry_exhaustion exhausted_env scenario_input scenario_heap
            "/nix/store/abc.tar"
            (snd (prefix exhausted_env scenario_input (initial scenario_heap)))
            eq_refl _).
  intros i Hi. split; [reflexivity | apply Hf].
Defined.

(** X12: a run of docker_nix.go sleeps exactly when it goes on to open the
    artifact, once and for 100 milliseconds; it opens the artifact at most
    once, makes at most one ingestion call and one lookup, and tags at most
    once, after a lookup. *)
Theorem single_bounds env inp h :
  let r := Single.Build env inp (initial h) in
  count is_sleep (events r) = count is_open (events r) /\
  (count is_open (events r) <= 1)%nat /\
  (forall ms, EvSleep ms ∈ events r -> ms = 100) /\
  (count is_load (events r) <= count is_open (events r))%nat /\
  (count is_pipe (events r) <= count is_load (events r))%nat /\
  (count is_lookup (events r) <= count is_pipe (events r))%nat /\
  (count is_tagging (events r) <= count is_lookup (events r))%nat.
Proof.
  cbv zeta. split_single env inp h Q. all: nix_error.
  all: repeat split; try lia.
  all: intros ms Hin; in_list Hin; simplify_eq; reflexivity.
Qed.

(** X13: a run of docker_nix.go closes what it opened and nothing else: no
    descriptor is open when the run ends, there are as many closes as
    ingestion calls, and the close of the file that was ingested is the last
    event of the run, after the lookup and the tagging. *)
Theorem single_defer_closes_last env inp h :
  let r := Single.Build env inp (initial h) in
  open_files (final r) = [] /\
  count is_close (events r) = count is_load (events r) /\
  (forall f, EvImageLoad f ∈ events r -> last (events r) = Some (EvClose f)) /\
  (forall f, EvClose f ∈ events r -> EvImageLoad f ∈ events r).
Proof.
  cbv zeta. split_single env inp h Q. all: nix_error.
  all: repeat split.
  all: intros f Hin; in_list Hin; simplify_eq; try reflexivity; is_in_list.
Qed.



(** ** The descriptors of part_000 *)

(** X15: a run of part_000 makes no close of its own; every file that it
    opens is handed to an ingestion call, but for an opening that failed,
    which is then the last event of the run and the cause of the error it
    returns; no descriptor is open when the run ends. *)
Theorem retry_hands_every_file_to_ingestion env inp h :
  let r := Retry.Build env inp (initial h) in
  count is_close (events r) = 0%nat /\
  open_files (final r) = [] /\
  (count is_open (events r) = count is_load (events r)
   \/ (count is_open (events r) = S (count is_load (events r)) /\
       exists path e,
         last (events r) = Some (EvOpen path) /\
         returned r
         = Some (None,
                 Some (ErrWrap ("couldnt open tarball: " +:+ path +:+ ", ") e)))).
Proof.
  cbv zeta. split_retry env inp h Q. all: nix_error.
  all: split; [reflexivity|]. all: split; [reflexivity|].
  all: first [left; reflexivity
             | right; split; [reflexivity|]; do 2 eexists; split; reflexivity].
Qed.

(** ** The configuration object across runs *)

Lemma effective_name_nonempty plan configured :
  effective_name plan configured <> "".
Proof.
  unfold effective_name. destruct configured; [|discriminate].
  destruct plan; discriminate.
Qed.

Lemma effective_name_kept plan configured :
  configured <> "" -> effective_name plan configured = configured.
Proof. destruct configured; [congruence | reflexivity]. Qed.

Lemma resolved_platform_nonempty g s sys :
  resolved_platform g s = Some sys -> sys <> "".
Proof.
  intros H. apply resolved_platform_Some in H.
  destruct H as [(_&_&->)|[(_&_&->)|(Hs&->)]]; [discriminate | discriminate | exact Hs].
Qed.

Lemma resolved_platform_kept g s :
  s <> "" -> resolved_platform g s = Some s.
Proof. destruct s; [congruence | reflexivity]. Qed.

(** The heap at the end of a run that has its configuration object. *)
Lemma final_heap v env inp h cfg c :
  BuildConfig inp = PtrDockerNixBuilderConfig cfg ->
  h !! cfg = Some c ->
  heap (final (Build_of v env inp (initial h)))
  = match NewClientWithOpts env, resolved_platform (GOARCH env) (System c) with
    | None, Some sys => <[cfg := defaulted inp c sys]> h
    | _, _ => h
    end.
Proof.
  intros Hptr Hc. split_run v env inp h Q.
  all: try congruence.
  all: nix_error.
  all: same_answers.
  all: use_answers; reflexivity.
Qed.

(** X16: the defaults stay: after a run that wrote them (it had its docker
    client and a platform), any later run of either variant for a request
    with the same configuration object, whatever its plan, its host and the
    answers it gets, leaves the object as it found it, and invokes nix, if it
    does, for the platform and the name that the first run wrote: the name
    is the one derived from the first request's plan. *)
Theorem defaults_are_sticky v v' env env' inp inp' h cfg c sys :
  BuildConfig inp = PtrDockerNixBuilderConfig cfg ->
  BuildConfig inp' = PtrDockerNixBuilderConfig cfg ->
  h !! cfg = Some c ->
  NewClientWithOpts env = None ->
  resolved_platform (GOARCH env) (System c) = Some sys ->
  let h1 := heap (final (Build_of v env inp (initial h))) in
  let r' := Build_of v' env' inp' (initial h1) in
  h1 !! cfg = Some {| Enabled := Enabled c;
                      Name := effective_name (TestPlan inp) (Name c);
                      System := sys |} /\
  heap (final r') = h1 /\
  (forall argv,
      EvOutput argv ∈ events r' ->
      argv = ["nix"; "build";
              PlanDir inp' +:+ "#legacyPackages." +:+ sys +:+ "."
                +:+ effective_name (TestPlan inp) (Name c);
              "--no-link"; "--print-out-paths"]).
Proof.
  intros Hptr Hptr' Hc Hcli Hsys. cbv zeta.
  rewrite (final_heap v env inp h cfg c Hptr Hc), Hcli, Hsys.
  set (c1 := defaulted inp c sys).
  assert (HS : System c1 = sys) by reflexivity.
  assert (HN : Name c1 = effective_name (TestPlan inp) (Name c)) by reflexivity.
  assert (HE : Enabled c1 = Enabled c) by reflexivity.
  assert (Hs1 : forall g, resolved_platform g (System c1) = Some sys).
  { intros g. rewrite HS. apply resolved_platform_kept.
    eapply resolved_platform_nonempty, Hsys. }
  assert (Hd : forall sys', defaulted inp' c1 sys'
                            = {| Enabled := Enabled c1; Name := Name c1;
                                 System := sys' |}).
  { intros sys'. unfold defaulted. f_equal. rewrite HN.
    apply effective_name_kept, effective_name_nonempty. }
  assert (Hc1 : (<[cfg := c1]> h) !! cfg = Some c1) by apply lookup_insert_eq.
  clearbody c1. generalize dependent (<[cfg := c1]> h). intros h1 Hc1.
  split; [rewrite Hc1; destruct c1; simpl in *; subst; reflexivity|].
  split.
  - rewrite (final_heap v' env' inp' h1 cfg c1 Hptr' Hc1), Hs1, Hd.
    destruct (NewClientWithOpts env'); [reflexivity|].
    apply insert_id. rewrite Hc1. destruct c1; simpl in *; subst; reflexivity.
  - split_run v' env' inp' h1 Q'. all: nix_error.
    all: intros argv Hin; in_list Hin; simplify_eq.
    all: same_answers.
    all: match goal with
         | H : resolved_platform _ (System _) = Some _ |- _ =>
             rewrite Hs1 in H; simplify_eq
         end.
    all: rewrite Hd; unfold argv_of, target; simpl; rewrite HN; reflexivity.
Qed.

Lemma defaults_are_sticky_witness :
  let h1 := heap (final (Retry.Build scenario_env scenario_input
                           (initial scenario_heap))) in
  let r' := Single.Build scenario_env second_input (initial h1) in
  BuildConfig scenario_input = PtrDockerNixBuilderConfig 0%nat /\
  BuildConfig second_input = PtrDockerNixBuilderConfig 0%nat /\
  TestPlan second_input = "othertest" /\
  h1 !! 0%nat = Some {| Enabled := true; Name := "mytest-image";
                        System := "x86_64-linux" |} /\
  heap (final r') = h1 /\
  (forall argv,
      EvOutput argv ∈ events r' ->
      argv = ["nix"; "build";
              "/plans/othertest#legacyPackages.x86_64-linux.mytest-image";
              "--no-link"; "--print-out-paths"]).
Proof.
  cbv zeta. do 3 (split; [reflexivity|]).
  exact (defaults_are_sticky Baseline Hardened scenario_env scenario_env
           scenario_input second_input scenario_heap 0%nat
           {| Enabled := true; Name := ""; System := "" |} "x86_64-linux"
           eq_refl eq_refl eq_refl eq_refl eq_refl).
Defined.

(** ** The two files side by side *)

(** X17: when the first attempt reads a non-empty tag, the two files do the
    same but for the sleep and the close: the run of docker_nix.go has the
    events of the run of part_000, with the 100 ms sleep before the opening
    and the close at the end; the heaps are equal; when the lookup answers,
    the results are equal; when it fails, the two errors wrap the same cause
    and differ in the text shown, the tag in part_000 and the whole last line
    of the response in docker_nix.go. *)
Theorem variants_agree_on_first_try env inp h path s1 rsp :
  prefix env inp (initial h) = (Next path, s1) ->
  Open env 0 path = None ->
  ImageLoad env 0 = None ->
  PipeOutput env 0 = Ok rsp ->
  default_tag rsp <> "" ->
  let r := Retry.Build env inp (initial h) in
  let r' := Single.Build env inp (initial h) in
  events r' = (take 4 (events r) ++ [EvSleep 100] ++ drop 4 (events r)
               ++ [EvClose 3%nat])%list /\
  heap (final r') = heap (final r) /\
  match GetImageID env (default_tag rsp) with
  | Ok id =>
      returned r' = returned r /\
      returned r = Some (Some {| ArtifactPath := id |},
                         ImageTag env id (TestPlan inp +:+ ":" +:+ id))
  | Err e =>
      returned r
      = Some (None,
              Some (ErrWrap ("couldnt get docker image id: "
                             +:+ default_tag rsp +:+ ", ") e)) /\
      returned r'
      = Some (None,
              Some (ErrWrap ("couldnt get docker image id: " +:+ rsp +:+ ", ") e))
  end.
Proof.
  intros Hp Ho Hl Hr Hne. cbv zeta.
  pattern (Single.Build env inp (initial h)), (Retry.Build env inp (initial h)).
  match goal with |- ?P _ _ => set (Q := P) end.
  rewrite Retry_Build_prefix, Single_Build_prefix.
  erewrite !(bind_Next (prefix env inp)) by exact Hp.
  pose proof (prefix_run env inp h) as Hcase. rewrite Hp in Hcase.
  inversion Hcase; subst. clear Hcase Hp.
  destruct (default_tag rsp) as [|a T] eqn:HT; [congruence|].
  unfold bind, time_Sleep, emit, pure, built. simpl.
  rewrite load_stage_run, load_loop_S, load_and_finish_run. simpl.
  rewrite Ho, Hl, Hr, HT. simpl. rewrite !identify_and_tag_run. simpl.
  destruct (GetImageID env (String a T)) as [id|e]; simpl;
    observe Q; repeat split.
Qed.

Lemma variants_agree_on_first_try_witness :
  let env := first_try scenario_env 1 in
  let r := Retry.Build env scenario_input (initial scenario_heap) in
  let r' := Single.Build env scenario_input (initial scenario_heap) in
  fst (prefix env scenario_input (initial scenario_heap))
  = Next "/nix/store/abc.tar" /\
  PipeOutput env 0 = Ok ("Loaded image: myimg:latest" +:+ CRLF) /\
  events r' = (take 4 (events r) ++ [EvSleep 100] ++ drop 4 (events r)
               ++ [EvClose 3%nat])%list /\
  heap (final r') = heap (final r) /\
  returned r' = returned r /\
  returned r = Some (Some {| ArtifactPath := "sha256:deadbeef" |}, None).
Proof.
  cbv zeta. split; [reflexivity|]. split; [reflexivity|].
  refine (variants_agree_on_first_try (first_try scenario_env 1) scenario_input
            scenario_heap "/nix/store/abc.tar"
            (snd (prefix (first_try scenario_env 1) scenario_input
                    (initial scenario_heap)))
            ("Loaded image: myimg:latest" +:+ CRLF)
            eq_refl eq_refl eq_refl eq_refl _).
  discriminate.
Defined.
